(** * Presigned-access Lambda handlers: a shallow embedding

    The two Python handlers of [terraform/modules/presigned-access/lambda]
    ([upload.py] and [download.py]) are embedded as Rocq functions over a
    small model of the Python values they manipulate.

    - JSON documents (the event, the request body, the form fields, the
      policy conditions) are values of [json]; Python dictionaries are
      association lists in insertion order.
    - A Python [str] is a [string] whose characters are code points below
      256; a Python [float] is represented by its [repr] text, which
      identifies it.
    - The S3 client, [json.loads], [json.dumps], the UTC clock and the
      float division of two integers are taken as parameters.
    - A handler runs in a monad that threads the number of clock readings
      taken and the list of S3 calls issued, and that may raise a Python
      exception. *)

From Stdlib Require Import ZArith List Bool Ascii String DecimalString Lia.
Import ListNotations.
Local Open Scope string_scope.
Local Open Scope Z_scope.

(** ** Python values *)

#[warnings="-register-all"]
Inductive json : Type :=
| JNull
| JBool (b : bool)
| JInt (n : Z)
| JFloat (repr : string)
| JStr (s : string)
| JArr (items : list json)
| JObj (members : list (string * json)).

Definition dict := list (string * json).

Module Py.

(** Characters that cannot be written inside a string literal here. *)
Definition squote : ascii := ascii_of_nat 39.
Definition dquote : ascii := ascii_of_nat 34.
Definition backslash : ascii := ascii_of_nat 92.

Definition str1 (c : ascii) : string := String c EmptyString.

(** [pat in s] for two Python strings. *)
Fixpoint contains (pat s : string) : bool :=
  prefix pat s ||
  match s with
  | EmptyString => false
  | String _ s' => contains pat s'
  end.

Fixpoint mem_char (c : ascii) (s : string) : bool :=
  match s with
  | EmptyString => false
  | String c' s' => Ascii.eqb c c' || mem_char c s'
  end.

(** [str(n)] for a Python [int]. *)
Definition str_int (n : Z) : string := NilZero.string_of_int (Z.to_int n).

Definition hex_digit (n : nat) : ascii :=
  match get n "0123456789abcdef" with
  | Some c => c
  | None => "0"%char
  end.

Definition hex_escape (code : nat) : string :=
  String backslash
    (String "x"%char
       (String (hex_digit (Nat.div code 16))
          (str1 (hex_digit (Nat.modulo code 16))))).

(** One character of [repr(s)], for the quote character chosen. *)
Definition repr_char (quote c : ascii) : string :=
  let code := nat_of_ascii c in
  if Ascii.eqb c quote || Ascii.eqb c backslash then String backslash (str1 c)
  else if Nat.eqb code 9 then String backslash "t"
  else if Nat.eqb code 10 then String backslash "n"
  else if Nat.eqb code 13 then String backslash "r"
  else if Nat.ltb code 32 || Nat.eqb code 127 then hex_escape code
  else if Nat.ltb code 127 then str1 c
  else if Nat.leb code 160 || Nat.eqb code 173 then hex_escape code
  else str1 c.

Fixpoint repr_chars (quote : ascii) (s : string) : string :=
  match s with
  | EmptyString => EmptyString
  | String c s' => repr_char quote c ++ repr_chars quote s'
  end.

(** [repr(s)] for a Python [str]: single quotes unless the text holds a
    single quote and no double quote. *)
Definition repr_str (s : string) : string :=
  let quote := if mem_char squote s && negb (mem_char dquote s)
               then dquote else squote in
  String quote (repr_chars quote s ++ str1 quote).

Fixpoint join (sep : string) (l : list string) : string :=
  match l with
  | [] => EmptyString
  | [x] => x
  | x :: rest => x ++ sep ++ join sep rest
  end.

(** [repr(v)]. *)
Fixpoint repr (v : json) : string :=
  match v with
  | JNull => "None"
  | JBool true => "True"
  | JBool false => "False"
  | JInt n => str_int n
  | JFloat r => r
  | JStr s => repr_str s
  | JArr items => "[" ++ join ", " (map repr items) ++ "]"
  | JObj members =>
      "{" ++ join ", "
               (map (fun kv => repr_str (fst kv) ++ ": " ++ repr (snd kv))
                    members)
          ++ "}"
  end.

(** [str(v)], which is also what an f-string placeholder renders. *)
Definition str (v : json) : string :=
  match v with
  | JStr s => s
  | _ => repr v
  end.

(** Truth value of [v], as tested by [if v] and [not v]. *)
Definition truthy (v : json) : bool :=
  match v with
  | JNull => false
  | JBool b => b
  | JInt n => negb (n =? 0)
  | JFloat r => negb (String.eqb r "0.0" || String.eqb r "-0.0")
  | JStr s => negb (String.eqb s EmptyString)
  | JArr items => match items with [] => false | _ => true end
  | JObj members => match members with [] => false | _ => true end
  end.

(** [type(v).__name__]. *)
Definition type_name (v : json) : string :=
  match v with
  | JNull => "NoneType"
  | JBool _ => "bool"
  | JInt _ => "int"
  | JFloat _ => "float"
  | JStr _ => "str"
  | JArr _ => "list"
  | JObj _ => "dict"
  end.

(** *** Dictionaries *)

Fixpoint dict_get (d : dict) (k : string) : option json :=
  match d with
  | [] => None
  | (k', v) :: rest => if String.eqb k k' then Some v else dict_get rest k
  end.

Definition dict_has (d : dict) (k : string) : bool :=
  match dict_get d k with Some _ => true | None => false end.

(** [d[k] = v]: the value is replaced in place, a new key goes last. *)
Fixpoint dict_set (d : dict) (k : string) (v : json) : dict :=
  match d with
  | [] => [(k, v)]
  | (k', v') :: rest =>
      if String.eqb k k' then (k', v) :: rest
      else (k', v') :: dict_set rest k v
  end.

(** [v == s] for a Python string [s]. *)
Definition eq_str (v : json) (s : string) : bool :=
  match v with
  | JStr s' => String.eqb s' s
  | _ => false
  end.

(** [v in l] for a list of strings [l]. *)
Definition in_str_list (v : json) (l : list string) : bool :=
  existsb (eq_str v) l.

End Py.

(** ** Exceptions, the clock and the S3 collaborator *)

(** [ClientError code text] is botocore's [ClientError] with
    [e.response['Error']['Code'] = code] and [str(e) = text];
    [Exception name text] is any other exception, of class [name]. *)
Inductive exn : Type :=
| ClientError (code text : string)
| Exception (name text : string).

Inductive outcome (A : Type) : Type :=
| Returned (a : A)
| Raised (e : exn).
Arguments Returned {A} a.
Arguments Raised {A} e.

(** A reading of [datetime.utcnow()]. *)
Record datetime : Type := {
  year : Z; month : Z; day : Z;
  hour : Z; minute : Z; second : Z; microsecond : Z
}.

(** The value [generate_presigned_post] returns: [{'url': .., 'fields': ..}]. *)
Record presigned_post : Type := {
  post_url : string;
  post_fields : dict
}.

Inductive s3_call : Type :=
| Head_object (Bucket : string) (Key : json)
| Generate_presigned_post
    (Bucket Key : string) (Fields : dict) (Conditions : list json) (ExpiresIn : Z)
| Generate_presigned_url (ClientMethod : string) (Params : dict) (ExpiresIn : Z).

(** What the handlers are run against: the [json] module, the UTC clock
    ([utcnow k] is the reading number [k] of an invocation), Python's true
    division of two [int]s ([truediv n d] is the [repr] of the float
    [n / d], or the exception the division raises: past the range of a
    float it is an [OverflowError]), and [s3_client]. *)
Record env : Type := {
  json_loads : string -> outcome json;
  json_dumps : json -> string;
  utcnow : nat -> datetime;
  truediv : Z -> Z -> outcome string;
  head_object : string -> json -> outcome unit;
  generate_presigned_post :
    string -> string -> dict -> list json -> Z -> outcome presigned_post;
  generate_presigned_url : string -> dict -> Z -> outcome string
}.

(** The API Gateway envelope the handlers return. *)
Record response : Type := {
  statusCode : Z;
  headers : list (string * string);
  body : string
}.

(** ** The handler monad *)

Record world : Type := {
  clock_reads : nat;
  s3_calls : list s3_call
}.

Definition initial_world : world := {| clock_reads := 0; s3_calls := [] |}.

Definition M (A : Type) : Type := world -> outcome A * world.

Definition ret {A : Type} (a : A) : M A := fun w => (Returned a, w).

Definition raise {A : Type} (e : exn) : M A := fun w => (Raised e, w).

Definition bind {A B : Type} (m : M A) (k : A -> M B) : M B :=
  fun w =>
    match m w with
    | (Returned a, w') => k a w'
    | (Raised e, w') => (Raised e, w')
    end.

Definition lift {A : Type} (o : outcome A) : M A := fun w => (o, w).

Notation "x <- m ;; k" := (bind m (fun x => k))
  (at level 61, m at next level, right associativity).

Definition log_call (c : s3_call) (w : world) : world :=
  {| clock_reads := clock_reads w; s3_calls := (s3_calls w ++ [c])%list |}.

Section Effects.
Variable E : env.

Definition now : M datetime :=
  fun w => (Returned (utcnow E (clock_reads w)),
            {| clock_reads := S (clock_reads w); s3_calls := s3_calls w |}).

Definition s3_head_object (Bucket : string) (Key : json) : M unit :=
  fun w => (head_object E Bucket Key, log_call (Head_object Bucket Key) w).

Definition s3_generate_presigned_post
    (Bucket Key : string) (Fields : dict) (Conditions : list json)
    (ExpiresIn : Z) : M presigned_post :=
  fun w =>
    (generate_presigned_post E Bucket Key Fields Conditions ExpiresIn,
     log_call (Generate_presigned_post Bucket Key Fields Conditions ExpiresIn) w).

Definition s3_generate_presigned_url
    (ClientMethod : string) (Params : dict) (ExpiresIn : Z) : M string :=
  fun w =>
    (generate_presigned_url E ClientMethod Params ExpiresIn,
     log_call (Generate_presigned_url ClientMethod Params ExpiresIn) w).
End Effects.

(** ** Operations of the handlers' Python *)

Module Op.

Definition attribute_error (v : json) (attr : string) : exn :=
  Exception "AttributeError"
    ("'" ++ Py.type_name v ++ "' object has no attribute '" ++ attr ++ "'").

(** ['body' in event]. *)
Definition has_body (event : json) : outcome bool :=
  match event with
  | JObj d => Returned (Py.dict_has d "body")
  | JArr items => Returned (existsb (fun v => Py.eq_str v "body") items)
  | JStr s => Returned (Py.contains "body" s)
  | _ => Raised (Exception "TypeError"
                   ("argument of type '" ++ Py.type_name event
                      ++ "' is not iterable"))
  end.

(** [event['body']]. *)
Definition get_body (event : json) : outcome json :=
  match event with
  | JObj d =>
      match Py.dict_get d "body" with
      | Some v => Returned v
      | None => Raised (Exception "KeyError" "'body'")
      end
  | JArr _ =>
      Raised (Exception "TypeError"
                "list indices must be integers or slices, not str")
  | JStr _ =>
      Raised (Exception "TypeError" "string indices must be integers, not 'str'")
  | _ => Raised (Exception "TypeError"
                   ("'" ++ Py.type_name event ++ "' object is not subscriptable"))
  end.

(** [body.get(k, default)]. *)
Definition get (body : json) (k : string) (default : json) : outcome json :=
  match body with
  | JObj d =>
      Returned (match Py.dict_get d k with Some v => v | None => default end)
  | _ => Raised (attribute_error body "get")
  end.

(** [metadata.items()]. *)
Definition items (metadata : json) : outcome dict :=
  match metadata with
  | JObj d => Returned d
  | _ => Raised (attribute_error metadata "items")
  end.

(** [fields[k]]. *)
Definition getitem (d : dict) (k : string) : outcome json :=
  match Py.dict_get d k with
  | Some v => Returned v
  | None => Raised (Exception "KeyError" (Py.repr_str k))
  end.

Fixpoint zeros (n : nat) : string :=
  match n with
  | O => EmptyString
  | S n' => String "0"%char (zeros n')
  end.

(** A number printed in at least [width] digits, as [%02d] and the like. *)
Definition pad (width : nat) (n : Z) : string :=
  let s := Py.str_int n in
  zeros (width - String.length s) ++ s.

(** [t.strftime('%Y/%m/%d/%H%M%S')]. For years from 1000 on every
    platform prints four digits. *)
Definition strftime (t : datetime) : string :=
  pad 4 (year t) ++ "/" ++ pad 2 (month t) ++ "/" ++ pad 2 (day t) ++ "/"
    ++ pad 2 (hour t) ++ pad 2 (minute t) ++ pad 2 (second t).

(** [t.isoformat()]: the microseconds are left out when they are zero. *)
Definition isoformat (t : datetime) : string :=
  pad 4 (year t) ++ "-" ++ pad 2 (month t) ++ "-" ++ pad 2 (day t) ++ "T"
    ++ pad 2 (hour t) ++ ":" ++ pad 2 (minute t) ++ ":" ++ pad 2 (second t)
    ++ (if microsecond t =? 0 then EmptyString
        else "." ++ pad 6 (microsecond t)).

End Op.

(** The first lines of both handlers: the request is the event itself, or
    what its [body] holds, decoded when it is text. *)
Definition parse_body (E : env) (event : json) : outcome json :=
  match Op.has_body event with
  | Raised e => Raised e
  | Returned true =>
      match Op.get_body event with
      | Raised e => Raised e
      | Returned (JStr s) => json_loads E s
      | Returned v => Returned v
      end
  | Returned false => Returned event
  end.

(** ** upload.py *)

Module Upload.

(** The module-level constants, as read from the environment at start:
    [MAX_FILE_SIZE_MB] is [int(os.environ.get('MAX_FILE_SIZE', 10))] and
    [ALLOWED_CONTENT_TYPES] the decoded JSON array of strings. *)
Record config : Type := {
  BUCKET_NAME : string;
  EXPIRATION_TIME : Z;
  MAX_FILE_SIZE_MB : Z;
  ALLOWED_CONTENT_TYPES : list string;
  KMS_KEY_ID : string
}.

Definition MAX_FILE_SIZE (cfg : config) : Z := MAX_FILE_SIZE_MB cfg * 1024 * 1024.

Definition content_type_field : string := "Content-Type".
Definition uploaded_at_field : string := "x-amz-meta-uploaded-at".
Definition sse_field : string := "x-amz-server-side-encryption".
Definition sse_key_id_field : string :=
  "x-amz-server-side-encryption-aws-kms-key-id".

Section Handler.
Variable E : env.
Variable cfg : config.

Definition success_response (data : json) : response :=
  {| statusCode := 200;
     headers := [("Content-Type", "application/json");
                 ("Access-Control-Allow-Origin", "*");
                 ("Access-Control-Allow-Headers", "Content-Type");
                 ("Access-Control-Allow-Methods", "POST")];
     body := json_dumps E data |}.

Definition error_response (status_code : Z) (message : string) : response :=
  {| statusCode := status_code;
     headers := [("Content-Type", "application/json");
                 ("Access-Control-Allow-Origin", "*")];
     body := json_dumps E (JObj [("error", JStr message)]) |}.

(** The loop [for key, value in metadata.items()]. *)
Definition add_metadata (fields : dict) (metadata : dict) : dict :=
  fold_left
    (fun fields kv =>
       Py.dict_set fields ("x-amz-meta-" ++ fst kv) (JStr (Py.str (snd kv))))
    metadata fields.

(** The body of [if KMS_KEY_ID:], on the fields and the conditions built
    so far. *)
Definition encryption_setup (fc : dict * list json) : dict * list json :=
  let fields := Py.dict_set (fst fc) sse_field (JStr "aws:kms") in
  let fields := Py.dict_set fields sse_key_id_field (JStr (KMS_KEY_ID cfg)) in
  let conditions :=
    filter (fun c => negb (Py.contains sse_field (Py.str c))) (snd fc) in
  let conditions :=
    (conditions ++ [JObj [(sse_field, JStr "aws:kms")]])%list in
  let conditions :=
    (conditions ++ [JObj [(sse_key_id_field, JStr (KMS_KEY_ID cfg))]])%list in
  (fields, conditions).

(** [MAX_FILE_SIZE / (1024 * 1024)]: the float the division gives, or the
    exception it raises. *)
Definition max_file_size_mb : outcome json :=
  match truediv E (MAX_FILE_SIZE cfg) (1024 * 1024) with
  | Returned r => Returned (JFloat r)
  | Raised e => Raised e
  end.

(** The [try] block of [lambda_handler]. *)
Definition try_block (event : json) : M response :=
  body <- lift (parse_body E event) ;;
  filename <- lift (Op.get body "filename" JNull) ;;
  content_type <-
    lift (Op.get body "content_type" (JStr "application/octet-stream")) ;;
  metadata <- lift (Op.get body "metadata" (JObj [])) ;;
  if negb (Py.truthy filename) then
    ret (error_response 400 "filename is required")
  else if match ALLOWED_CONTENT_TYPES cfg with [] => false | _ => true end
          && negb (Py.in_str_list content_type (ALLOWED_CONTENT_TYPES cfg))
  then
    ret (error_response 400
           ("Content type " ++ Py.str content_type ++ " not allowed"))
  else
    t <- now E ;;
    let timestamp := Op.strftime t in
    let object_key := "uploads/" ++ timestamp ++ "/" ++ Py.str filename in
    t' <- now E ;;
    let fields := [(content_type_field, content_type);
                   (uploaded_at_field, JStr (Op.isoformat t'))] in
    items <- lift (Op.items metadata) ;;
    let fields := add_metadata fields items in
    uploaded_at <- lift (Op.getitem fields uploaded_at_field) ;;
    let conditions :=
      [JObj [(content_type_field, content_type)];
       JArr [JStr "content-length-range"; JInt 1; JInt (MAX_FILE_SIZE cfg)];
       JObj [(uploaded_at_field, uploaded_at)]] in
    let fc :=
      if negb (String.eqb (KMS_KEY_ID cfg) EmptyString)
      then encryption_setup (fields, conditions)
      else (fields, conditions) in
    resp <-
      s3_generate_presigned_post E (BUCKET_NAME cfg) object_key
        (fst fc) (snd fc) (EXPIRATION_TIME cfg) ;;
    size_mb <- lift max_file_size_mb ;;
    ret (success_response
           (JObj [("upload_url", JStr (post_url resp));
                  ("fields", JObj (post_fields resp));
                  ("object_key", JStr object_key);
                  ("expires_in", JInt (EXPIRATION_TIME cfg));
                  ("max_file_size_mb", size_mb)])).

(** [lambda_handler(event, context)]: the [try] block under its two
    [except] clauses (what they print is not modelled). *)
Definition lambda_handler (event : json) (w : world) : response * world :=
  match try_block event w with
  | (Returned r, w') => (r, w')
  | (Raised (ClientError _ text), w') =>
      (error_response 500 ("Error generating presigned URL: " ++ text), w')
  | (Raised (Exception _ text), w') =>
      (error_response 500 ("Unexpected error: " ++ text), w')
  end.

End Handler.

End Upload.

(** ** download.py *)

Module Download.

Record config : Type := {
  BUCKET_NAME : string;
  EXPIRATION_TIME : Z;
  KMS_KEY_ID : string
}.

Section Handler.
Variable E : env.
Variable cfg : config.

Definition success_response (data : json) : response :=
  {| statusCode := 200;
     headers := [("Content-Type", "application/json");
                 ("Access-Control-Allow-Origin", "*");
                 ("Access-Control-Allow-Headers", "Content-Type");
                 ("Access-Control-Allow-Methods", "POST")];
     body := json_dumps E data |}.

Definition error_response (status_code : Z) (message : string) : response :=
  {| statusCode := status_code;
     headers := [("Content-Type", "application/json");
                 ("Access-Control-Allow-Origin", "*")];
     body := json_dumps E (JObj [("error", JStr message)]) |}.

(** The inner [try] around [head_object]: [None] when the object is
    there, the 404 envelope when the client error says it is not; any
    other exception goes on to the outer [except] clauses. *)
Definition check_exists (object_key : json) : M (option response) :=
  fun w =>
    match s3_head_object E (BUCKET_NAME cfg) object_key w with
    | (Returned _, w') => (Returned None, w')
    | (Raised (ClientError code text), w') =>
        if String.eqb code "404"
        then (Returned (Some (error_response 404 "Object not found")), w')
        else (Raised (ClientError code text), w')
    | (Raised e, w') => (Raised e, w')
    end.

(** The [try] block of [lambda_handler]. *)
Definition try_block (event : json) : M response :=
  body <- lift (parse_body E event) ;;
  object_key <- lift (Op.get body "object_key" JNull) ;;
  response_content_disposition <-
    lift (Op.get body "response_content_disposition" JNull) ;;
  if negb (Py.truthy object_key) then
    ret (error_response 400 "object_key is required")
  else
    missing <- check_exists object_key ;;
    match missing with
    | Some not_found => ret not_found
    | None =>
        let params := [("Bucket", JStr (BUCKET_NAME cfg));
                       ("Key", object_key)] in
        let params :=
          if Py.truthy response_content_disposition
          then Py.dict_set params "ResponseContentDisposition"
                 response_content_disposition
          else params in
        download_url <-
          s3_generate_presigned_url E "get_object" params
            (EXPIRATION_TIME cfg) ;;
        ret (success_response
               (JObj [("download_url", JStr download_url);
                      ("object_key", object_key);
                      ("expires_in", JInt (EXPIRATION_TIME cfg))]))
    end.

Definition lambda_handler (event : json) (w : world) : response * world :=
  match try_block event w with
  | (Returned r, w') => (r, w')
  | (Raised (ClientError _ text), w') =>
      (error_response 500 ("Error generating presigned URL: " ++ text), w')
  | (Raised (Exception _ text), w') =>
      (error_response 500 ("Unexpected error: " ++ text), w')
  end.

End Handler.

End Download.

(** ** Vocabulary of the properties *)

(** What a request object holds under a key, with [dict.get]'s default. *)
Definition field (d : dict) (k : string) (default : json) : json :=
  match Py.dict_get d k with
  | Some v => v
  | None => default
  end.

(** A key is missing from the request, or holds an empty (false) value. *)
Definition missing_or_empty (d : dict) (k : string) : bool :=
  match Py.dict_get d k with
  | None => true
  | Some v => negb (Py.truthy v)
  end.

(** The content-type test of the upload handler lets [v] through. *)
Definition allowed (cfg : Upload.config) (v : json) : bool :=
  match Upload.ALLOWED_CONTENT_TYPES cfg with
  | [] => true
  | l => Py.in_str_list v l
  end.

(** A policy condition that binds the form field [k]: [{k: value}]. *)
Definition binds_field (k : string) (c : json) : bool :=
  match c with
  | JObj [(k', _)] => String.eqb k k'
  | _ => false
  end.

(** The size-range condition: [['content-length-range', lo, hi]]. *)
Definition is_size_range (c : json) : bool :=
  match c with
  | JArr [JStr tag; _; _] => String.eqb tag "content-length-range"
  | _ => false
  end.

Definition count (p : json -> bool) (conditions : list json) : nat :=
  List.length (filter p conditions).

(** A response header, by name. *)
Fixpoint header_of (hs : list (string * string)) (name : string)
  : option string :=
  match hs with
  | [] => None
  | (k, v) :: rest => if String.eqb name k then Some v else header_of rest name
  end.

Definition header (r : response) (name : string) : option string :=
  header_of (headers r) name.

(** [s] is made of exactly [width] decimal digits. *)
Definition is_digit (c : ascii) : bool :=
  (Nat.leb 48 (nat_of_ascii c) && Nat.leb (nat_of_ascii c) 57)%bool.

Fixpoint all_digits (s : string) : bool :=
  match s with
  | EmptyString => true
  | String c s' => is_digit c && all_digits s'
  end.

Definition digits (width : nat) (s : string) : bool :=
  Nat.eqb (String.length s) width && all_digits s.

(** The characters [isoformat] and [strftime] can print. *)
Definition timestamp_char (c : ascii) : bool :=
  is_digit c || Py.mem_char c "-:.T/".

Fixpoint all_chars (p : ascii -> bool) (s : string) : bool :=
  match s with
  | EmptyString => true
  | String c s' => p c && all_chars p s'
  end.

(** A clock reading that [datetime] can hold, from the year 1000 on. *)
Definition valid_datetime (t : datetime) : Prop :=
  1000 <= year t <= 9999 /\ 1 <= month t <= 12 /\ 1 <= day t <= 31 /\
  0 <= hour t <= 23 /\ 0 <= minute t <= 59 /\ 0 <= second t <= 59 /\
  0 <= microsecond t <= 999999.

(** The message of the 500 envelope the two [except] clauses build for an
    exception [e] that leaves the [try] block. *)
Definition failure_message (e : exn) : string :=
  match e with
  | ClientError _ text => "Error generating presigned URL: " ++ text
  | Exception _ text => "Unexpected error: " ++ text
  end.

(** ** A concrete deployment, to run the handlers on *)

Module Demo.

Definition at_noon (s us : Z) : datetime :=
  {| year := 2024; month := 2; day := 13;
     hour := 12; minute := 0; second := s; microsecond := us |}.

(** The clock reads 12:00:00.999999 first and 12:00:01.000002 next. *)
Definition clock (k : nat) : datetime :=
  match k with
  | O => at_noon 0 999999
  | _ => at_noon 1 2
  end.

Definition absent_key : string := "uploads/2024/02/13/120000/doc.pdf".

(** The division where it is exact: a whole quotient of at most 2^53 is a
    float that prints as that number with [.0]. The sizes of this
    deployment stay there; elsewhere this stand-in gives no float. *)
Definition exact_truediv (n d : Z) : outcome string :=
  if negb (d =? 0) && (n mod d =? 0) && (Z.abs (n / d) <=? 2 ^ 53)
  then Returned (Py.str_int (n / d) ++ ".0")
  else Raised (Exception "NotImplementedError" "inexact division").

(** A stand-in S3: one key is absent, everything else exists; text that
    starts a JSON object decodes to the empty request, other text is
    refused; values are printed as Python prints them. *)
Definition E : env :=
  {| json_loads := fun s =>
       if prefix "{" s then Returned (JObj [])
       else Raised (Exception "JSONDecodeError"
                      "Expecting value: line 1 column 1 (char 0)");
     json_dumps := Py.repr;
     utcnow := clock;
     truediv := exact_truediv;
     head_object := fun _ key =>
       if Py.eq_str key absent_key
       then Raised (ClientError "404"
                      "An error occurred (404) when calling the HeadObject operation: Not Found")
       else Returned tt;
     generate_presigned_post := fun bucket _ fields _ _ =>
       Returned {| post_url := "https://" ++ bucket ++ ".s3.amazonaws.com/";
                   post_fields := fields |};
     generate_presigned_url := fun _ _ _ =>
       Returned "https://s3.amazonaws.com/signed" |}.

Definition upload_cfg (allow : list string) (kms : string) : Upload.config :=
  {| Upload.BUCKET_NAME := "fortress";
     Upload.EXPIRATION_TIME := 300;
     Upload.MAX_FILE_SIZE_MB := 10;
     Upload.ALLOWED_CONTENT_TYPES := allow;
     Upload.KMS_KEY_ID := kms |}.

Definition download_cfg : Download.config :=
  {| Download.BUCKET_NAME := "fortress";
     Download.EXPIRATION_TIME := 300;
     Download.KMS_KEY_ID := EmptyString |}.

Definition kms_key : string := "alias/fortress".

(** The requests of the specification's scenarios A to D. *)
Definition scenario_a : json :=
  JObj [("filename", JStr "doc.pdf"); ("content_type", JStr "application/pdf")].

Definition scenario_b : json :=
  JObj [("filename", JStr "x.exe");
        ("content_type", JStr "application/x-msdownload")].

Definition scenario_c : json := JObj [("object_key", JStr absent_key)].

Definition scenario_d : json :=
  JObj [("object_key", JStr "k");
        ("response_content_disposition", JStr "attachment; filename=out.pdf")].

(** The input the docstring of the upload handler gives as expected. *)
Definition documented_upload : json :=
  JObj [("filename", JStr "document.pdf");
        ("content_type", JStr "application/pdf");
        ("metadata", JObj [("user_id", JStr "123")])].

(** A content type that spells the name of the encryption-algorithm field. *)
Definition clashing_upload : json :=
  JObj [("filename", JStr "doc.pdf");
        ("content_type", JStr "x-amz-server-side-encryption")].

(** A request with a content type and no file name. *)
Definition nameless_upload : json :=
  JObj [("content_type", JStr "application/x-msdownload")].

(** An API Gateway event whose body is not JSON. *)
Definition malformed_event : json := JObj [("body", JStr "not json")].

(** The deployment above with another S3 behind it. *)
Definition with_s3
    (head : outcome unit) (post : outcome presigned_post) (url : outcome string)
  : env :=
  {| json_loads := json_loads E;
     json_dumps := json_dumps E;
     utcnow := utcnow E;
     truediv := truediv E;
     head_object := fun _ _ => head;
     generate_presigned_post := fun _ _ _ _ _ => post;
     generate_presigned_url := fun _ _ _ => url |}.

Definition access_denied : exn :=
  ClientError "AccessDenied"
    "An error occurred (AccessDenied) when calling the HeadObject operation: Access Denied".

Definition no_credentials : exn :=
  Exception "NoCredentialsError" "Unable to locate credentials".

(** An S3 that refuses every call. *)
Definition E_denied : env :=
  with_s3 (Raised access_denied) (Raised access_denied) (Raised access_denied).

(** An S3 where objects exist and nothing can be signed. *)
Definition E_unsigned : env :=
  with_s3 (Returned tt) (Raised no_credentials) (Raised no_credentials).

(** An upload request with two metadata entries, one of them numeric. *)
Definition tagged_upload : json :=
  JObj [("filename", JStr "doc.pdf");
        ("metadata", JObj [("user_id", JInt 123); ("team", JStr "ops")])].

(** An upload request whose metadata names the server's own tag. *)
Definition backdated_upload : json :=
  JObj [("filename", JStr "doc.pdf");
        ("metadata", JObj [("uploaded-at", JStr "1999-12-31T23:59:59")])].

(** An upload request whose metadata is text, not an object. *)
Definition untyped_metadata_upload : json :=
  JObj [("filename", JStr "doc.pdf"); ("metadata", JStr "user_id=123")].

End Demo.

(** * Properties *)

(** ** Basic facts *)

Lemma get_object_field (d : dict) (k : string) (default : json) :
  Op.get (JObj d) k default = Returned (field d k default).
Proof. reflexivity. Qed.

Lemma missing_or_empty_falsy (d : dict) (k : string) :
  missing_or_empty d k = true -> Py.truthy (field d k JNull) = false.
Proof.
  unfold missing_or_empty, field.
  destruct (Py.dict_get d k) as [v|]; simpl; intros H.
  - now apply negb_true_iff.
  - reflexivity.
Qed.

Lemma present_field (d : dict) (k : string) (v default : json) :
  Py.dict_get d k = Some v -> field d k default = v.
Proof. unfold field. now intros ->. Qed.

Lemma absent_field (d : dict) (k : string) (default : json) :
  Py.dict_get d k = None -> field d k default = default.
Proof. unfold field. now intros ->. Qed.

(** Unfolding of the monad, for a request that decoded to an object. *)
Ltac run_monad :=
  unfold bind, lift, ret, raise; cbn beta iota.

(** ** Validation (C3, C5, C10) *)

Section Validation.
Variable E : env.
Variable ucfg : Upload.config.
Variable dcfg : Download.config.

Lemma upload_rejects_falsy_filename (event : json) (d : dict) (w : world) :
  parse_body E event = Returned (JObj d) ->
  Py.truthy (field d "filename" JNull) = false ->
  Upload.lambda_handler E ucfg event w =
    (Upload.error_response E 400 "filename is required", w).
Proof.
  intros Hbody Hname.
  unfold Upload.lambda_handler, Upload.try_block. run_monad.
  rewrite Hbody, !get_object_field, Hname. reflexivity.
Qed.

Lemma download_rejects_falsy_object_key (event : json) (d : dict) (w : world) :
  parse_body E event = Returned (JObj d) ->
  Py.truthy (field d "object_key" JNull) = false ->
  Download.lambda_handler E dcfg event w =
    (Download.error_response E 400 "object_key is required", w).
Proof.
  intros Hbody Hkey.
  unfold Download.lambda_handler, Download.try_block. run_monad.
  rewrite Hbody, !get_object_field, Hkey. reflexivity.
Qed.

(** C3, amended. When the request is an object -- the event itself, or
    the object its [body] holds or decodes to -- and lacks its identifier,
    or holds an empty one, the handler answers with the 400 envelope and the world is left
    as it was: the clock is not read and no S3 call is issued. This holds
    for [filename] in the upload handler and for [object_key] in the
    download handler. *)
Theorem missing_identifier_is_rejected
    (event : json) (d : dict) (w : world) :
  parse_body E event = Returned (JObj d) ->
  (missing_or_empty d "filename" = true ->
   Upload.lambda_handler E ucfg event w =
     (Upload.error_response E 400 "filename is required", w)) /\
  (missing_or_empty d "object_key" = true ->
   Download.lambda_handler E dcfg event w =
     (Download.error_response E 400 "object_key is required", w)).
Proof.
  intros Hbody; split; intros Hmiss.
  - apply upload_rejects_falsy_filename with (d := d); trivial.
    now apply missing_or_empty_falsy.
  - apply download_rejects_falsy_object_key with (d := d); trivial.
    now apply missing_or_empty_falsy.
Qed.

Lemma parse_body_text (d : dict) (s : string) :
  Py.dict_get d "body" = Some (JStr s) ->
  parse_body E (JObj d) = json_loads E s.
Proof.
  intros H. unfold parse_body, Op.has_body, Op.get_body, Py.dict_has.
  now rewrite H.
Qed.

(** C10. When the event's [body] is text that [json.loads] refuses, both
    handlers answer with the 500 envelope whose message starts with
    [Unexpected error: ], and the world is left as it was. *)
Theorem malformed_body_is_unexpected_error
    (d : dict) (s text : string) (w : world) :
  Py.dict_get d "body" = Some (JStr s) ->
  json_loads E s = Raised (Exception "JSONDecodeError" text) ->
  Upload.lambda_handler E ucfg (JObj d) w =
    (Upload.error_response E 500 ("Unexpected error: " ++ text), w) /\
  Download.lambda_handler E dcfg (JObj d) w =
    (Download.error_response E 500 ("Unexpected error: " ++ text), w).
Proof.
  intros Hbody Hloads.
  pose proof (parse_body_text d s Hbody) as Hparse.
  rewrite Hloads in Hparse.
  split.
  - unfold Upload.lambda_handler, Upload.try_block. run_monad.
    now rewrite Hparse.
  - unfold Download.lambda_handler, Download.try_block. run_monad.
    now rewrite Hparse.
Qed.

End Validation.

Lemma prefix_app (p s : string) : prefix p (p ++ s) = true.
Proof.
  induction p as [|c p IH]; simpl.
  - now destruct s.
  - destruct (ascii_dec c c); [exact IH | congruence].
Qed.

Lemma contains_here (p s : string) : prefix p s = true -> Py.contains p s = true.
Proof. intros H. destruct s; simpl in *; now rewrite H. Qed.

Lemma contains_app_r (p a s : string) :
  Py.contains p s = true -> Py.contains p (a ++ s) = true.
Proof.
  intros H. induction a as [|c a IH]; simpl; trivial.
  rewrite IH. apply orb_true_r.
Qed.

Lemma contains_infix (p a b : string) : Py.contains p (a ++ p ++ b) = true.
Proof. apply contains_app_r, contains_here, prefix_app. Qed.

Lemma not_missing_truthy (d : dict) (k : string) :
  missing_or_empty d k = false -> Py.truthy (field d k JNull) = true.
Proof.
  unfold missing_or_empty, field.
  destruct (Py.dict_get d k) as [v|]; simpl; intros H.
  - now apply negb_false_iff.
  - discriminate.
Qed.

Section ContentType.
Variable E : env.
Variable cfg : Upload.config.

(** C5, amended. For a request object with a non-empty [filename] whose
    content type (the default one when none is given) is not in a
    non-empty allow-list, the upload handler answers with the 400
    envelope, its message holds the rejected content type, and the world
    is left as it was. *)
Theorem disallowed_content_type_is_rejected
    (event : json) (d : dict) (w : world) :
  parse_body E event = Returned (JObj d) ->
  missing_or_empty d "filename" = false ->
  Upload.ALLOWED_CONTENT_TYPES cfg <> [] ->
  Py.in_str_list (field d "content_type" (JStr "application/octet-stream"))
    (Upload.ALLOWED_CONTENT_TYPES cfg) = false ->
  exists message : string,
    Upload.lambda_handler E cfg event w =
      (Upload.error_response E 400 message, w) /\
    Py.contains
      (Py.str (field d "content_type" (JStr "application/octet-stream")))
      message = true.
Proof.
  intros Hbody Hname Hlist Hout.
  apply not_missing_truthy in Hname.
  eexists; split.
  - unfold Upload.lambda_handler, Upload.try_block. run_monad.
    rewrite Hbody, !get_object_field, Hname, Hout.
    destruct (Upload.ALLOWED_CONTENT_TYPES cfg); [congruence|].
    reflexivity.
  - apply contains_infix.
Qed.

End ContentType.

(** ** The download handler (C4, C9) *)

Section DownloadProperties.
Variable E : env.
Variable cfg : Download.config.

(** C4. For a request object with a non-empty [object_key], when
    [head_object] raises the client error with code 404, the download
    handler answers with the 404 envelope [Object not found]; the
    existence check is the only S3 call issued, so nothing is presigned. *)
Theorem absent_object_is_not_found
    (event : json) (d : dict) (text : string) (w : world) :
  parse_body E event = Returned (JObj d) ->
  missing_or_empty d "object_key" = false ->
  head_object E (Download.BUCKET_NAME cfg) (field d "object_key" JNull) =
    Raised (ClientError "404" text) ->
  Download.lambda_handler E cfg event w =
    (Download.error_response E 404 "Object not found",
     log_call (Head_object (Download.BUCKET_NAME cfg)
                 (field d "object_key" JNull)) w).
Proof.
  intros Hbody Hkey Hhead.
  apply not_missing_truthy in Hkey.
  unfold Download.lambda_handler, Download.try_block. run_monad.
  rewrite Hbody, !get_object_field, Hkey. cbn [negb].
  unfold Download.check_exists, s3_head_object.
  rewrite Hhead. reflexivity.
Qed.

(** The signing parameters of a request object: the disposition override
    is added when the request holds a true (non-empty) one. *)
Lemma download_existing_object (event : json) (d : dict) (w : world) :
  parse_body E event = Returned (JObj d) ->
  missing_or_empty d "object_key" = false ->
  head_object E (Download.BUCKET_NAME cfg) (field d "object_key" JNull) =
    Returned tt ->
  let object_key := field d "object_key" JNull in
  let disposition := field d "response_content_disposition" JNull in
  let params :=
    if Py.truthy disposition
    then [("Bucket", JStr (Download.BUCKET_NAME cfg)); ("Key", object_key);
          ("ResponseContentDisposition", disposition)]
    else [("Bucket", JStr (Download.BUCKET_NAME cfg)); ("Key", object_key)] in
  snd (Download.lambda_handler E cfg event w) =
    log_call (Generate_presigned_url "get_object" params
                (Download.EXPIRATION_TIME cfg))
      (log_call (Head_object (Download.BUCKET_NAME cfg) object_key) w) /\
  forall url : string,
    generate_presigned_url E "get_object" params
      (Download.EXPIRATION_TIME cfg) = Returned url ->
    fst (Download.lambda_handler E cfg event w) =
      Download.success_response E
        (JObj [("download_url", JStr url);
               ("object_key", object_key);
               ("expires_in", JInt (Download.EXPIRATION_TIME cfg))]).
Proof.
  intros Hbody Hkey Hhead.
  apply not_missing_truthy in Hkey.
  unfold Download.lambda_handler, Download.try_block. run_monad.
  rewrite Hbody, !get_object_field, Hkey. cbn [negb].
  unfold Download.check_exists, s3_head_object.
  rewrite Hhead. cbn beta iota zeta.
  unfold s3_generate_presigned_url.
  destruct (Py.truthy (field d "response_content_disposition" JNull));
    cbn [Py.dict_set String.eqb Ascii.eqb Bool.eqb];
    match goal with
    | |- context [generate_presigned_url E ?m ?p ?t] =>
        destruct (generate_presigned_url E m p t) as [url|[c t'|n t']]
    end; (split; [reflexivity|]); intros url' Hurl;
    solve [discriminate | now inversion Hurl].
Qed.

(** C9. For a request object whose [object_key] is non-empty and whose
    object exists ([head_object] returns), the parameters handed to
    [generate_presigned_url] hold the disposition override exactly when
    the request supplied one. When the request holds the non-empty text
    [disposition], the call is made with bucket, key and
    [ResponseContentDisposition = disposition], word for word; when the
    request has no such entry, the call is made with bucket and key only.
    The test is Python's truth test and nothing else: an override that is
    there and empty or null is not passed either, and any other value is
    passed as it is. In every case the URL the collaborator returns comes
    back in a 200 envelope under [download_url]. *)
Theorem disposition_override_is_passed_when_supplied
    (event : json) (d : dict) (w : world) :
  parse_body E event = Returned (JObj d) ->
  missing_or_empty d "object_key" = false ->
  head_object E (Download.BUCKET_NAME cfg) (field d "object_key" JNull) =
    Returned tt ->
  let object_key := field d "object_key" JNull in
  let answer (params : dict) : Prop :=
    s3_calls (snd (Download.lambda_handler E cfg event w)) =
      (s3_calls w ++
       [Head_object (Download.BUCKET_NAME cfg) object_key;
        Generate_presigned_url "get_object" params
          (Download.EXPIRATION_TIME cfg)])%list /\
    forall url : string,
      generate_presigned_url E "get_object" params
        (Download.EXPIRATION_TIME cfg) = Returned url ->
      fst (Download.lambda_handler E cfg event w) =
        Download.success_response E
          (JObj [("download_url", JStr url);
                 ("object_key", object_key);
                 ("expires_in", JInt (Download.EXPIRATION_TIME cfg))]) in
  (forall disposition : string,
     Py.dict_get d "response_content_disposition" = Some (JStr disposition) ->
     disposition <> EmptyString ->
     answer [("Bucket", JStr (Download.BUCKET_NAME cfg));
             ("Key", object_key);
             ("ResponseContentDisposition", JStr disposition)]) /\
  (Py.dict_get d "response_content_disposition" = None ->
   answer [("Bucket", JStr (Download.BUCKET_NAME cfg));
           ("Key", object_key)]) /\
  (missing_or_empty d "response_content_disposition" = true ->
   answer [("Bucket", JStr (Download.BUCKET_NAME cfg));
           ("Key", object_key)]) /\
  (missing_or_empty d "response_content_disposition" = false ->
   answer [("Bucket", JStr (Download.BUCKET_NAME cfg));
           ("Key", object_key);
           ("ResponseContentDisposition",
            field d "response_content_disposition" JNull)]).
Proof.
  intros Hbody Hkey Hhead object_key answer.
  destruct (download_existing_object event d w Hbody Hkey Hhead)
    as [Hworld Hresp].
  split; [|split; [|split]]; cycle 2.
  - intros Hempty. unfold answer.
    apply missing_or_empty_falsy in Hempty.
    rewrite Hempty in Hworld, Hresp.
    split; [|exact Hresp].
    rewrite Hworld. simpl. now rewrite <- app_assoc.
  - intros Hgiven. unfold answer.
    apply not_missing_truthy in Hgiven.
    rewrite Hgiven in Hworld, Hresp.
    split; [|exact Hresp].
    rewrite Hworld. simpl. now rewrite <- app_assoc.
  - intros disposition Hget Hne. unfold answer.
    rewrite (present_field _ _ _ JNull Hget) in Hworld, Hresp.
    assert (Ht : Py.truthy (JStr disposition) = true).
    { simpl. apply negb_true_iff. now apply String.eqb_neq. }
    rewrite Ht in Hworld, Hresp.
    split; [|exact Hresp].
    rewrite Hworld. simpl. now rewrite <- app_assoc.
  - intros Hget. unfold answer.
    rewrite (absent_field _ _ JNull Hget) in Hworld, Hresp.
    simpl in Hworld, Hresp.
    split; [|exact Hresp].
    rewrite Hworld. simpl. now rewrite <- app_assoc.
Qed.

End DownloadProperties.

(** ** Dictionaries *)

Lemma dict_get_set (d : dict) (k k' : string) (v : json) :
  Py.dict_get (Py.dict_set d k v) k' =
    if String.eqb k' k then Some v else Py.dict_get d k'.
Proof.
  induction d as [|[k0 v0] d IH]; simpl.
  - reflexivity.
  - destruct (String.eqb k k0) eqn:Hk; simpl.
    + apply String.eqb_eq in Hk; subst k0.
      now destruct (String.eqb k' k).
    + destruct (String.eqb k' k0) eqn:Hk'.
      * apply String.eqb_eq in Hk'; subst k0.
        now rewrite String.eqb_sym, Hk.
      * exact IH.
Qed.

Lemma metadata_key_is_uploaded_at (k : string) :
  String.eqb Upload.uploaded_at_field ("x-amz-meta-" ++ k) =
    String.eqb "uploaded-at" k.
Proof. reflexivity. Qed.

Lemma add_metadata_cons (fields : dict) (k : string) (v : json) (md : dict) :
  Upload.add_metadata fields ((k, v) :: md) =
    Upload.add_metadata
      (Py.dict_set fields ("x-amz-meta-" ++ k) (JStr (Py.str v))) md.
Proof. reflexivity. Qed.

(** The loop over the metadata never removes a field. *)
Lemma add_metadata_keeps (md fields : dict) (k : string) :
  Py.dict_get fields k <> None ->
  Py.dict_get (Upload.add_metadata fields md) k <> None.
Proof.
  revert fields. induction md as [|[k0 v0] md IH]; intros fields H.
  - exact H.
  - rewrite add_metadata_cons. apply IH.
    rewrite dict_get_set.
    destruct (String.eqb k ("x-amz-meta-" ++ k0)); [discriminate | exact H].
Qed.

(** It leaves the upload timestamp alone unless the caller's metadata has
    an [uploaded-at] entry of its own. *)
Lemma add_metadata_uploaded_at (md fields : dict) :
  Py.dict_get md "uploaded-at" = None ->
  Py.dict_get (Upload.add_metadata fields md) Upload.uploaded_at_field =
    Py.dict_get fields Upload.uploaded_at_field.
Proof.
  revert fields. induction md as [|[k0 v0] md IH]; intros fields H.
  - reflexivity.
  - rewrite add_metadata_cons. cbn [Py.dict_get] in H.
    destruct (String.eqb "uploaded-at" k0) eqn:Hk; [discriminate|].
    rewrite IH by exact H.
    rewrite dict_get_set, metadata_key_is_uploaded_at, Hk. reflexivity.
Qed.

(** It never touches the content type: every key it writes starts with
    [x-amz-meta-]. *)
Lemma add_metadata_content_type (md fields : dict) :
  Py.dict_get (Upload.add_metadata fields md) Upload.content_type_field =
    Py.dict_get fields Upload.content_type_field.
Proof.
  revert fields. induction md as [|[k0 v0] md IH]; intros fields.
  - reflexivity.
  - rewrite add_metadata_cons, IH, dict_get_set. reflexivity.
Qed.

(** ** The upload handler on a request that passes validation *)

Section UploadRun.
Variable E : env.
Variable cfg : Upload.config.

Lemma upload_valid_request (event : json) (d md : dict) (w : world) :
  parse_body E event = Returned (JObj d) ->
  missing_or_empty d "filename" = false ->
  allowed cfg (field d "content_type" (JStr "application/octet-stream"))
    = true ->
  field d "metadata" (JObj []) = JObj md ->
  let content_type := field d "content_type" (JStr "application/octet-stream") in
  let t := utcnow E (clock_reads w) in
  let t' := utcnow E (S (clock_reads w)) in
  let object_key :=
    "uploads/" ++ Op.strftime t ++ "/" ++ Py.str (field d "filename" JNull) in
  let fields :=
    Upload.add_metadata
      [(Upload.content_type_field, content_type);
       (Upload.uploaded_at_field, JStr (Op.isoformat t'))] md in
  exists uploaded_at : json,
    Py.dict_get fields Upload.uploaded_at_field = Some uploaded_at /\
    let conditions :=
      [JObj [(Upload.content_type_field, content_type)];
       JArr [JStr "content-length-range"; JInt 1;
             JInt (Upload.MAX_FILE_SIZE cfg)];
       JObj [(Upload.uploaded_at_field, uploaded_at)]] in
    let fc :=
      if negb (String.eqb (Upload.KMS_KEY_ID cfg) EmptyString)
      then Upload.encryption_setup cfg (fields, conditions)
      else (fields, conditions) in
    snd (Upload.lambda_handler E cfg event w) =
      log_call
        (Generate_presigned_post (Upload.BUCKET_NAME cfg) object_key
           (fst fc) (snd fc) (Upload.EXPIRATION_TIME cfg))
        {| clock_reads := S (S (clock_reads w)); s3_calls := s3_calls w |} /\
    forall (resp : presigned_post) (size_mb : json),
      generate_presigned_post E (Upload.BUCKET_NAME cfg) object_key
        (fst fc) (snd fc) (Upload.EXPIRATION_TIME cfg) = Returned resp ->
      Upload.max_file_size_mb E cfg = Returned size_mb ->
      fst (Upload.lambda_handler E cfg event w) =
        Upload.success_response E
          (JObj [("upload_url", JStr (post_url resp));
                 ("fields", JObj (post_fields resp));
                 ("object_key", JStr object_key);
                 ("expires_in", JInt (Upload.EXPIRATION_TIME cfg));
                 ("max_file_size_mb", size_mb)]).
Proof.
  intros Hbody Hname Hallowed Hmd content_type t t' object_key fields.
  apply not_missing_truthy in Hname.
  destruct (Py.dict_get fields Upload.uploaded_at_field) as [u|] eqn:Hu.
  2:{ exfalso. revert Hu. apply add_metadata_keeps. discriminate. }
  exists u. split; [reflexivity|].
  cbn zeta.
  unfold Upload.lambda_handler, Upload.try_block. run_monad.
  rewrite Hbody, !get_object_field, Hname, Hmd. cbn [negb].
  assert (Hgate :
    (match Upload.ALLOWED_CONTENT_TYPES cfg with [] => false | _ => true end
     && negb (Py.in_str_list content_type (Upload.ALLOWED_CONTENT_TYPES cfg)))
    = false).
  { unfold allowed in Hallowed. fold content_type in Hallowed.
    destruct (Upload.ALLOWED_CONTENT_TYPES cfg); [reflexivity|].
    now rewrite Hallowed. }
  fold content_type. rewrite Hgate.
  unfold now. cbn [clock_reads s3_calls Op.items].
  fold t t' fields. unfold Op.getitem. rewrite Hu.
  unfold s3_generate_presigned_post. cbn beta iota.
  fold object_key.
  match goal with
  | |- context [generate_presigned_post E ?b ?k ?f ?c ?x] =>
      destruct (generate_presigned_post E b k f c x) as [r|[c0 t0|n0 t0]]
  end;
    (split;
     [destruct (Upload.max_file_size_mb E cfg) as [m|[c1 t1|n1 t1]];
      reflexivity|]);
    intros resp size_mb Hresp Hsize; try discriminate Hresp.
  injection Hresp as ->. now rewrite Hsize.
Qed.

End UploadRun.

(** ** The object key and the timestamp (C6, C7) *)

Lemma append_assoc (a b c : string) : (a ++ b) ++ c = a ++ b ++ c.
Proof. induction a as [|x a IH]; simpl; [reflexivity | now rewrite IH]. Qed.

Lemma digits_append (m n : nat) (a b : string) :
  digits m a = true -> digits n b = true -> digits (m + n) (a ++ b) = true.
Proof.
  unfold digits. rewrite !andb_true_iff, !Nat.eqb_eq.
  intros [Hm Ha] [Hn Hb]. subst m n. split.
  - clear Ha Hb. induction a as [|x a IH]; simpl; [reflexivity | now rewrite IH].
  - induction a as [|x a IH]; simpl in *; [exact Hb|].
    apply andb_true_iff in Ha as [Hx Ha]. now rewrite Hx, IH.
Qed.

(** Padding checked over a whole range of numbers at once. *)
Lemma pad_digits_below (width : nat) (bound : Z) :
  forallb (fun k => digits width (Op.pad width (Z.of_nat k)))
    (seq 0 (Z.to_nat bound)) = true ->
  forall n : Z, 0 <= n < bound -> digits width (Op.pad width n) = true.
Proof.
  intros Hall n Hn.
  rewrite forallb_forall in Hall.
  specialize (Hall (Z.to_nat n)).
  rewrite Z2Nat.id in Hall by lia.
  apply Hall, in_seq. lia.
Qed.

Lemma pad2_digits (n : Z) : 0 <= n <= 99 -> digits 2 (Op.pad 2 n) = true.
Proof.
  intros Hn. apply (pad_digits_below 2 100); [vm_compute; reflexivity | lia].
Qed.

Lemma pad4_digits (n : Z) : 0 <= n <= 9999 -> digits 4 (Op.pad 4 n) = true.
Proof.
  intros Hn. apply (pad_digits_below 4 10000); [vm_compute; reflexivity | lia].
Qed.

Lemma log_call_calls (c : s3_call) (n : nat) (calls : list s3_call) :
  s3_calls (log_call c {| clock_reads := n; s3_calls := calls |}) =
    (calls ++ [c])%list.
Proof. reflexivity. Qed.

Lemma encryption_setup_keeps_field
    (cfg : Upload.config) (fields : dict) (conditions : list json) (k : string) :
  String.eqb k Upload.sse_field = false ->
  String.eqb k Upload.sse_key_id_field = false ->
  Py.dict_get (fst (Upload.encryption_setup cfg (fields, conditions))) k =
    Py.dict_get fields k.
Proof.
  intros H1 H2. unfold Upload.encryption_setup. cbn [fst snd].
  now rewrite !dict_get_set, H1, H2.
Qed.

Section Timestamps.
Variable E : env.
Variable cfg : Upload.config.

(** C6. For a request object with the non-empty file name [name], an
    allowed content type and metadata that is an object (or absent), the
    key handed to [generate_presigned_post], and returned under
    [object_key] when the collaborator answers and the size in MiB can be
    computed, is
    [uploads/YYYY/MM/DD/HHMMSS/name]: the four groups are the year, month,
    day and time of day of the handler's first clock reading, printed in
    4, 2, 2 and 6 decimal digits, and [name] is the request's file name
    as it came. *)
Theorem object_key_is_derived_from_clock
    (event : json) (d md : dict) (name : string) (w : world) :
  parse_body E event = Returned (JObj d) ->
  Py.dict_get d "filename" = Some (JStr name) ->
  name <> EmptyString ->
  allowed cfg (field d "content_type" (JStr "application/octet-stream"))
    = true ->
  field d "metadata" (JObj []) = JObj md ->
  valid_datetime (utcnow E (clock_reads w)) ->
  let t := utcnow E (clock_reads w) in
  exists (YYYY MM DD HHMMSS : string) (fields : dict) (conditions : list json),
    YYYY = Op.pad 4 (year t) /\
    MM = Op.pad 2 (month t) /\
    DD = Op.pad 2 (day t) /\
    HHMMSS = Op.pad 2 (hour t) ++ Op.pad 2 (minute t) ++ Op.pad 2 (second t) /\
    digits 4 YYYY = true /\ digits 2 MM = true /\ digits 2 DD = true /\
    digits 6 HHMMSS = true /\
    let object_key :=
      "uploads/" ++ YYYY ++ "/" ++ MM ++ "/" ++ DD ++ "/" ++ HHMMSS
        ++ "/" ++ name in
    s3_calls (snd (Upload.lambda_handler E cfg event w)) =
      (s3_calls w ++
       [Generate_presigned_post (Upload.BUCKET_NAME cfg) object_key
          fields conditions (Upload.EXPIRATION_TIME cfg)])%list /\
    forall (resp : presigned_post) (size_mb : json),
      generate_presigned_post E (Upload.BUCKET_NAME cfg) object_key
        fields conditions (Upload.EXPIRATION_TIME cfg) = Returned resp ->
      Upload.max_file_size_mb E cfg = Returned size_mb ->
      fst (Upload.lambda_handler E cfg event w) =
        Upload.success_response E
          (JObj [("upload_url", JStr (post_url resp));
                 ("fields", JObj (post_fields resp));
                 ("object_key", JStr object_key);
                 ("expires_in", JInt (Upload.EXPIRATION_TIME cfg));
                 ("max_file_size_mb", size_mb)]).
Proof.
  intros Hbody Hname Hne Hallowed Hmd Hvalid t.
  assert (Hpresent : missing_or_empty d "filename" = false).
  { unfold missing_or_empty. rewrite Hname. simpl.
    apply negb_false_iff, negb_true_iff. now apply String.eqb_neq. }
  destruct (upload_valid_request E cfg event d md w Hbody Hpresent Hallowed Hmd)
    as (u & _ & Hworld & Hresp).
  rewrite (present_field _ _ _ JNull Hname) in Hworld, Hresp.
  cbn [Py.str] in Hworld, Hresp. fold t in Hworld, Hresp.
  assert (Hkey :
    "uploads/" ++ Op.strftime t ++ "/" ++ name =
    "uploads/" ++ Op.pad 4 (year t) ++ "/" ++ Op.pad 2 (month t) ++ "/"
      ++ Op.pad 2 (day t) ++ "/"
      ++ (Op.pad 2 (hour t) ++ Op.pad 2 (minute t) ++ Op.pad 2 (second t))
      ++ "/" ++ name).
  { unfold Op.strftime. now rewrite !append_assoc. }
  rewrite Hkey in Hworld, Hresp.
  destruct Hvalid as (Hy & Hmo & Hd & Hh & Hmi & Hs & _). fold t in Hy, Hmo, Hd, Hh, Hmi, Hs.
  do 6 eexists.
  split; [reflexivity|]. split; [reflexivity|]. split; [reflexivity|].
  split; [reflexivity|].
  split; [apply pad4_digits; lia|].
  split; [apply pad2_digits; lia|].
  split; [apply pad2_digits; lia|].
  split.
  { apply (digits_append 2 4); [apply pad2_digits; lia|].
    apply (digits_append 2 2); apply pad2_digits; lia. }
  cbn zeta. split.
  - rewrite Hworld. apply log_call_calls.
  - exact Hresp.
Qed.

(** C7, amended. For a request object that passes validation and whose
    metadata has no [uploaded-at] entry, the upload timestamp among the
    required fields is the ISO-8601 text of the handler's second clock
    reading, taken right after the reading the object key is derived
    from; it is the text of the key's instant when the two readings are
    equal. *)
Theorem upload_timestamp_is_the_second_reading
    (event : json) (d md : dict) (w : world) :
  parse_body E event = Returned (JObj d) ->
  missing_or_empty d "filename" = false ->
  allowed cfg (field d "content_type" (JStr "application/octet-stream"))
    = true ->
  field d "metadata" (JObj []) = JObj md ->
  Py.dict_get md "uploaded-at" = None ->
  let t := utcnow E (clock_reads w) in
  let t' := utcnow E (S (clock_reads w)) in
  exists (fields : dict) (conditions : list json),
    s3_calls (snd (Upload.lambda_handler E cfg event w)) =
      (s3_calls w ++
       [Generate_presigned_post (Upload.BUCKET_NAME cfg)
          ("uploads/" ++ Op.strftime t ++ "/"
             ++ Py.str (field d "filename" JNull))
          fields conditions (Upload.EXPIRATION_TIME cfg)])%list /\
    Py.dict_get fields Upload.uploaded_at_field =
      Some (JStr (Op.isoformat t')) /\
    (t' = t ->
     Py.dict_get fields Upload.uploaded_at_field =
       Some (JStr (Op.isoformat t))).
Proof.
  intros Hbody Hname Hallowed Hmd Hfree t t'.
  destruct (upload_valid_request E cfg event d md w Hbody Hname Hallowed Hmd)
    as (u & Hu & Hworld & _).
  fold t t' in Hworld, Hu.
  do 2 eexists. split; [rewrite Hworld; apply log_call_calls|].
  assert (Htag :
    Py.dict_get
      (Upload.add_metadata
         [(Upload.content_type_field,
           field d "content_type" (JStr "application/octet-stream"));
          (Upload.uploaded_at_field, JStr (Op.isoformat t'))] md)
      Upload.uploaded_at_field = Some (JStr (Op.isoformat t'))).
  { now rewrite add_metadata_uploaded_at. }
  assert (Hfinal : forall fc_conditions,
    Py.dict_get
      (fst (if negb (String.eqb (Upload.KMS_KEY_ID cfg) EmptyString)
            then Upload.encryption_setup cfg
                   (Upload.add_metadata
                      [(Upload.content_type_field,
                        field d "content_type"
                          (JStr "application/octet-stream"));
                       (Upload.uploaded_at_field, JStr (Op.isoformat t'))] md,
                    fc_conditions)
            else (Upload.add_metadata
                    [(Upload.content_type_field,
                      field d "content_type"
                        (JStr "application/octet-stream"));
                     (Upload.uploaded_at_field, JStr (Op.isoformat t'))] md,
                  fc_conditions)))
      Upload.uploaded_at_field = Some (JStr (Op.isoformat t'))).
  { intros c. destruct (negb _); cbn [fst]; [|exact Htag].
    rewrite encryption_setup_keeps_field by reflexivity. exact Htag. }
  split; [apply Hfinal|].
  intros <-. apply Hfinal.
Qed.

End Timestamps.

(** ** Response envelopes (C8) *)

(** Closes a goal about a response that is an error envelope. *)
Ltac error_envelope :=
  solve [right; do 2 eexists; cbn [fst]; split; [reflexivity | auto]].

Ltac success_envelope :=
  solve [left; eexists; cbn [fst]; reflexivity].

Section Envelopes.
Variable E : env.

Lemma upload_response_shape
    (cfg : Upload.config) (event : json) (w : world) :
  let r := fst (Upload.lambda_handler E cfg event w) in
  (exists data, r = Upload.success_response E data) \/
  (exists status message,
     r = Upload.error_response E status message /\
     (status = 400 \/ status = 500)).
Proof.
  cbn zeta. unfold Upload.lambda_handler, Upload.try_block. run_monad.
  destruct (parse_body E event) as [body|[c t|n t]];
    [|error_envelope..].
  destruct body; cbn [Op.get Op.attribute_error]; try error_envelope.
  destruct (negb (Py.truthy _)); [error_envelope|].
  destruct (_ && _); [error_envelope|].
  unfold now. cbn beta iota.
  destruct (Op.items _) as [items|[c t|n t]]; [|error_envelope..].
  destruct (Op.getitem _ _) as [u|[c t|n t]]; [|error_envelope..].
  unfold s3_generate_presigned_post.
  destruct (generate_presigned_post E _ _ _ _ _) as [resp|[c t|n t]];
    [|error_envelope..].
  cbn beta iota.
  destruct (Upload.max_file_size_mb E cfg) as [size_mb|[c t|n t]];
    [success_envelope | error_envelope..].
Qed.

Lemma download_response_shape
    (cfg : Download.config) (event : json) (w : world) :
  let r := fst (Download.lambda_handler E cfg event w) in
  (exists data, r = Download.success_response E data) \/
  (exists status message,
     r = Download.error_response E status message /\
     (status = 400 \/ status = 404 \/ status = 500)).
Proof.
  cbn zeta. unfold Download.lambda_handler, Download.try_block. run_monad.
  destruct (parse_body E event) as [body|[c t|n t]];
    [|error_envelope..].
  destruct body; cbn [Op.get Op.attribute_error]; try error_envelope.
  destruct (negb (Py.truthy _)); [error_envelope|].
  unfold Download.check_exists, s3_head_object.
  destruct (head_object E _ _) as [[]|[c t|n t]]; cbn beta iota.
  - unfold s3_generate_presigned_url.
    destruct (generate_presigned_url E _ _ _) as [url|[c t|n t]];
      [success_envelope | error_envelope..].
  - destruct (String.eqb c "404"); error_envelope.
  - error_envelope.
Qed.

(** X20. The headers of all responses. Every response of either handler carries
    [Access-Control-Allow-Origin: *]. A response with status 200 also
    carries [Access-Control-Allow-Methods: POST] and
    [Access-Control-Allow-Headers: Content-Type]; any other response is
    an error envelope with status 400, 404 or 500 whose only headers are
    [Content-Type] and [Access-Control-Allow-Origin]. *)
Theorem cross_origin_headers_of_responses
    (ucfg : Upload.config) (dcfg : Download.config)
    (event : json) (w : world) (r : response) :
  r = fst (Upload.lambda_handler E ucfg event w) \/
  r = fst (Download.lambda_handler E dcfg event w) ->
  header r "Access-Control-Allow-Origin" = Some "*" /\
  (statusCode r = 200 ->
   header r "Access-Control-Allow-Methods" = Some "POST" /\
   header r "Access-Control-Allow-Headers" = Some "Content-Type") /\
  (statusCode r <> 200 ->
   (statusCode r = 400 \/ statusCode r = 404 \/ statusCode r = 500) /\
   headers r = [("Content-Type", "application/json");
                ("Access-Control-Allow-Origin", "*")]).
Proof.
  intros Hr.
  assert (Hshape :
    (exists data, r = Upload.success_response E data) \/
    (exists data, r = Download.success_response E data) \/
    (exists status message,
       (r = Upload.error_response E status message \/
        r = Download.error_response E status message) /\
       (status = 400 \/ status = 404 \/ status = 500))).
  { destruct Hr as [-> | ->].
    - destruct (upload_response_shape ucfg event w)
        as [[data ->] | (status & message & -> & Hs)]; [eauto|].
      right; right. exists status, message. intuition.
    - destruct (download_response_shape dcfg event w)
        as [[data ->] | (status & message & -> & Hs)]; [eauto|].
      right; right. exists status, message. intuition. }
  destruct Hshape as [[data ->] | [[data ->] | (status & message & Herr & Hs)]].
  - split; [reflexivity|]. split; [intros _; split; reflexivity|].
    intros H; now elim H.
  - split; [reflexivity|]. split; [intros _; split; reflexivity|].
    intros H; now elim H.
  - assert (Hparts : statusCode r = status /\
                     headers r = [("Content-Type", "application/json");
                                  ("Access-Control-Allow-Origin", "*")]).
    { destruct Herr as [-> | ->]; split; reflexivity. }
    destruct Hparts as [Hstatus Hheaders].
    unfold header. rewrite Hheaders, Hstatus.
    split; [reflexivity|]. split.
    + intros H200. destruct Hs as [|[|]]; subst status; discriminate.
    + intros _. split; [exact Hs | reflexivity].
Qed.

End Envelopes.

(** ** The text of timestamps and numbers *)

Lemma all_chars_app (p : ascii -> bool) (a b : string) :
  all_chars p (a ++ b) = all_chars p a && all_chars p b.
Proof.
  induction a as [|c a IH]; simpl; [reflexivity|].
  now rewrite IH, andb_assoc.
Qed.

Lemma uint_timestamp_chars (d : Decimal.uint) :
  all_chars timestamp_char (NilEmpty.string_of_uint d) = true.
Proof. induction d; simpl; trivial. Qed.

Lemma nilzero_timestamp_chars (d : Decimal.uint) :
  all_chars timestamp_char (NilZero.string_of_uint d) = true.
Proof. destruct d; try reflexivity; apply uint_timestamp_chars. Qed.

Lemma str_int_timestamp_chars (n : Z) :
  all_chars timestamp_char (Py.str_int n) = true.
Proof.
  unfold Py.str_int, NilZero.string_of_int.
  destruct (Z.to_int n) as [d|d].
  - apply nilzero_timestamp_chars.
  - cbn [all_chars]. now rewrite nilzero_timestamp_chars.
Qed.

Lemma zeros_timestamp_chars (n : nat) :
  all_chars timestamp_char (Op.zeros n) = true.
Proof. induction n as [|n IH]; simpl; trivial. Qed.

Lemma pad_timestamp_chars (width : nat) (n : Z) :
  all_chars timestamp_char (Op.pad width n) = true.
Proof.
  unfold Op.pad.
  now rewrite all_chars_app, zeros_timestamp_chars, str_int_timestamp_chars.
Qed.

Lemma isoformat_timestamp_chars (t : datetime) :
  all_chars timestamp_char (Op.isoformat t) = true.
Proof.
  unfold Op.isoformat.
  destruct (microsecond t =? 0);
    repeat (rewrite all_chars_app || rewrite pad_timestamp_chars);
    reflexivity.
Qed.

(** Python prints such text between single quotes, as it is. *)
Lemma repr_char_timestamp (c : ascii) :
  timestamp_char c = true -> Py.repr_char Py.squote c = Py.str1 c.
Proof.
  destruct c as [[] [] [] [] [] [] [] []]; try discriminate; reflexivity.
Qed.

Lemma timestamp_char_plain (c : ascii) :
  timestamp_char c = true ->
  Ascii.eqb Py.squote c = false /\ Ascii.eqb "x" c = false.
Proof.
  destruct c as [[] [] [] [] [] [] [] []]; try discriminate; now split.
Qed.

Lemma repr_chars_timestamp (s : string) :
  all_chars timestamp_char s = true -> Py.repr_chars Py.squote s = s.
Proof.
  induction s as [|c s IH]; simpl; [reflexivity|].
  intros H. apply andb_true_iff in H as [Hc Hs].
  now rewrite repr_char_timestamp, IH.
Qed.

Lemma timestamp_no_char (c : ascii) (s : string) :
  (forall a, timestamp_char a = true -> Ascii.eqb c a = false) ->
  all_chars timestamp_char s = true -> Py.mem_char c s = false.
Proof.
  intros Hc. induction s as [|a s IH]; simpl; [reflexivity|].
  intros H. apply andb_true_iff in H as [Ha Hs].
  now rewrite (Hc a Ha), IH.
Qed.

Lemma repr_str_timestamp (s : string) :
  all_chars timestamp_char s = true ->
  Py.repr_str s = String Py.squote (s ++ Py.str1 Py.squote).
Proof.
  intros H. unfold Py.repr_str.
  rewrite (timestamp_no_char Py.squote s) by
    (trivial; intros a Ha; now apply timestamp_char_plain).
  cbn [andb]. now rewrite repr_chars_timestamp.
Qed.

(** ** Searching a text for a field name *)

Lemma mem_char_app (c : ascii) (a b : string) :
  Py.mem_char c (a ++ b) = Py.mem_char c a || Py.mem_char c b.
Proof.
  induction a as [|x a IH]; simpl; [reflexivity|].
  now rewrite IH, orb_assoc.
Qed.

(** A text without the first character of [pat] does not hold [pat]. *)
Lemma contains_needs_first (c : ascii) (p s : string) :
  Py.mem_char c s = false -> Py.contains (String c p) s = false.
Proof.
  induction s as [|a s IH]; simpl; [reflexivity|].
  intros H. apply orb_false_iff in H as [Ha Hs].
  rewrite (IH Hs), orb_false_r.
  destruct (ascii_dec c a) as [->|]; [|reflexivity].
  now rewrite Ascii.eqb_refl in Ha.
Qed.

(** ** The encryption set-up (C1, C2) *)

Lemma timestamp_condition_is_kept (t : datetime) :
  Py.contains Upload.sse_field
    (Py.str (JObj [(Upload.uploaded_at_field, JStr (Op.isoformat t))])) = false.
Proof.
  pose proof (isoformat_timestamp_chars t) as Hiso.
  cbn [Py.str Py.repr map fst snd Py.join].
  rewrite (repr_str_timestamp _ Hiso).
  set (iso := Op.isoformat t) in *.
  assert (Hx : Py.mem_char "x" iso = false).
  { apply timestamp_no_char; trivial.
    intros a Ha; now apply timestamp_char_plain. }
  assert (Htail :
    Py.contains Upload.sse_field ((iso ++ Py.str1 Py.squote) ++ "}") = false).
  { apply contains_needs_first. now rewrite !mem_char_app, Hx. }
  vm_compute Py.squote in *. vm_compute Upload.sse_field in *.
  simpl. simpl in Htail. rewrite Htail. reflexivity.
Qed.

Lemma size_condition_is_kept (n : Z) :
  Py.contains Upload.sse_field
    (Py.str (JArr [JStr "content-length-range"; JInt 1; JInt n])) = false.
Proof.
  apply contains_needs_first.
  cbn [Py.str Py.repr map Py.join].
  rewrite !mem_char_app.
  rewrite (timestamp_no_char "x" (Py.str_int n)).
  - reflexivity.
  - intros a Ha; now apply timestamp_char_plain.
  - apply str_int_timestamp_chars.
Qed.

Lemma algorithm_condition_is_removed :
  Py.contains Upload.sse_field
    (Py.str (JObj [(Upload.sse_field, JStr "aws:kms")])) = true.
Proof. reflexivity. Qed.

Lemma key_id_condition_is_removed (key_id : string) :
  Py.contains Upload.sse_field
    (Py.str (JObj [(Upload.sse_key_id_field, JStr key_id)])) = true.
Proof. reflexivity. Qed.

Lemma dict_set_same (d : dict) (k : string) (v : json) :
  Py.dict_get d k = Some v -> Py.dict_set d k v = d.
Proof.
  induction d as [|[k0 v0] d IH]; simpl; [discriminate|].
  destruct (String.eqb k k0) eqn:Hk.
  - now intros [= ->].
  - intros H. now rewrite IH.
Qed.

Lemma filter_twice {A : Type} (p : A -> bool) (l : list A) :
  filter p (filter p l) = filter p l.
Proof.
  induction l as [|x l IH]; simpl; [reflexivity|].
  destruct (p x) eqn:Hx; simpl; [now rewrite Hx, IH | exact IH].
Qed.

Section Encryption.
Variable cfg : Upload.config.

(** X17. Running the set-up again changes nothing: the two conditions it
    appended are removed and appended once more, and the two fields are
    written over with the same values. *)
Lemma encryption_setup_idempotent (fc : dict * list json) :
  Upload.encryption_setup cfg (Upload.encryption_setup cfg fc) =
    Upload.encryption_setup cfg fc.
Proof.
  destruct fc as [fields conditions].
  unfold Upload.encryption_setup. cbn [fst snd]. f_equal.
  - set (f1 := Py.dict_set fields Upload.sse_field (JStr "aws:kms")).
    set (f2 := Py.dict_set f1 Upload.sse_key_id_field
                 (JStr (Upload.KMS_KEY_ID cfg))).
    assert (H1 : Py.dict_get f2 Upload.sse_field = Some (JStr "aws:kms")).
    { unfold f2, f1. now rewrite !dict_get_set. }
    rewrite (dict_set_same f2 _ _ H1).
    apply dict_set_same. unfold f2. rewrite dict_get_set.
    now rewrite String.eqb_refl.
  - rewrite <- !app_assoc, filter_app, filter_twice.
    cbn [filter app].
    rewrite algorithm_condition_is_removed, key_id_condition_is_removed.
    cbn [negb app]. now rewrite app_nil_r.
Qed.

(** The conditions after the set-up, when neither the content-type
    condition nor the timestamp condition prints the name of the
    encryption-algorithm field. *)
Lemma encryption_setup_conditions
    (fields : dict) (content_type uploaded_at : json) :
  Py.contains Upload.sse_field
    (Py.str (JObj [(Upload.content_type_field, content_type)])) = false ->
  Py.contains Upload.sse_field
    (Py.str (JObj [(Upload.uploaded_at_field, uploaded_at)])) = false ->
  snd (Upload.encryption_setup cfg
         (fields,
          [JObj [(Upload.content_type_field, content_type)];
           JArr [JStr "content-length-range"; JInt 1;
                 JInt (Upload.MAX_FILE_SIZE cfg)];
           JObj [(Upload.uploaded_at_field, uploaded_at)]])) =
    [JObj [(Upload.content_type_field, content_type)];
     JArr [JStr "content-length-range"; JInt 1;
           JInt (Upload.MAX_FILE_SIZE cfg)];
     JObj [(Upload.uploaded_at_field, uploaded_at)];
     JObj [(Upload.sse_field, JStr "aws:kms")];
     JObj [(Upload.sse_key_id_field, JStr (Upload.KMS_KEY_ID cfg))]].
Proof.
  intros Hct Hts.
  unfold Upload.encryption_setup. cbn [fst snd filter].
  rewrite Hct, Hts, size_condition_is_kept. reflexivity.
Qed.

End Encryption.

Section Policy.
Variable E : env.
Variable cfg : Upload.config.

(** X18. With encryption configured, each kind of condition is handed to
    [generate_presigned_post] exactly once, provided the caller's metadata
    has no [uploaded-at] entry and the content-type condition does not
    print the name of the encryption-algorithm field. *)
Lemma conditions_once_without_name_clash
    (event : json) (d md : dict) (w : world) :
  parse_body E event = Returned (JObj d) ->
  missing_or_empty d "filename" = false ->
  allowed cfg (field d "content_type" (JStr "application/octet-stream"))
    = true ->
  field d "metadata" (JObj []) = JObj md ->
  Upload.KMS_KEY_ID cfg <> EmptyString ->
  Py.dict_get md "uploaded-at" = None ->
  Py.contains Upload.sse_field
    (Py.str (JObj [(Upload.content_type_field,
                    field d "content_type"
                      (JStr "application/octet-stream"))])) = false ->
  exists (key : string) (fields : dict) (conditions : list json),
    s3_calls (snd (Upload.lambda_handler E cfg event w)) =
      (s3_calls w ++
       [Generate_presigned_post (Upload.BUCKET_NAME cfg) key fields
          conditions (Upload.EXPIRATION_TIME cfg)])%list /\
    List.length conditions = 5%nat /\
    count (binds_field Upload.content_type_field) conditions = 1%nat /\
    count is_size_range conditions = 1%nat /\
    count (binds_field Upload.uploaded_at_field) conditions = 1%nat /\
    count (binds_field Upload.sse_field) conditions = 1%nat /\
    count (binds_field Upload.sse_key_id_field) conditions = 1%nat.
Proof.
  intros Hbody Hname Hallowed Hmd Hkms Hfree Hct.
  destruct (upload_valid_request E cfg event d md w Hbody Hname Hallowed Hmd)
    as (u & Hu & Hworld & _).
  rewrite add_metadata_uploaded_at in Hu by exact Hfree.
  cbn [Py.dict_get Upload.uploaded_at_field Upload.content_type_field
       String.eqb Ascii.eqb Bool.eqb] in Hu.
  injection Hu as <-.
  apply String.eqb_neq in Hkms. rewrite Hkms in Hworld. cbn [negb] in Hworld.
  rewrite encryption_setup_conditions in Hworld
    by (trivial; apply timestamp_condition_is_kept).
  do 3 eexists. split; [rewrite Hworld; apply log_call_calls|].
  repeat split.
Qed.

(** X19. Every condition that binds a form field is backed by the required
    field of that name, with the same value. *)
Lemma conditions_are_backed_by_fields
    (event : json) (d md : dict) (w : world) :
  parse_body E event = Returned (JObj d) ->
  missing_or_empty d "filename" = false ->
  allowed cfg (field d "content_type" (JStr "application/octet-stream"))
    = true ->
  field d "metadata" (JObj []) = JObj md ->
  exists (key : string) (fields : dict) (conditions : list json),
    s3_calls (snd (Upload.lambda_handler E cfg event w)) =
      (s3_calls w ++
       [Generate_presigned_post (Upload.BUCKET_NAME cfg) key fields
          conditions (Upload.EXPIRATION_TIME cfg)])%list /\
    forall (k : string) (v : json),
      In (JObj [(k, v)]) conditions -> Py.dict_get fields k = Some v.
Proof.
  intros Hbody Hname Hallowed Hmd.
  destruct (upload_valid_request E cfg event d md w Hbody Hname Hallowed Hmd)
    as (u & Hu & Hworld & _).
  do 3 eexists. split; [rewrite Hworld; apply log_call_calls|].
  set (ct := field d "content_type" (JStr "application/octet-stream")) in *.
  set (fields := Upload.add_metadata _ md) in *.
  assert (Hc : Py.dict_get fields Upload.content_type_field = Some ct).
  { unfold fields. now rewrite add_metadata_content_type. }
  assert (Hbase : forall k v,
    In (JObj [(k, v)])
      [JObj [(Upload.content_type_field, ct)];
       JArr [JStr "content-length-range"; JInt 1;
             JInt (Upload.MAX_FILE_SIZE cfg)];
       JObj [(Upload.uploaded_at_field, u)]] ->
    (k = Upload.content_type_field \/ k = Upload.uploaded_at_field) /\
    Py.dict_get fields k = Some v).
  { intros k v [H|[H|[H|[]]]]; try discriminate;
      injection H as <- <-; auto. }
  intros k v Hin.
  destruct (negb (String.eqb (Upload.KMS_KEY_ID cfg) EmptyString)).
  - unfold Upload.encryption_setup in *. cbn [fst snd] in *.
    rewrite <- app_assoc in Hin.
    apply in_app_or in Hin as [Hin|Hin].
    + apply filter_In in Hin as [Hin _].
      destruct (Hbase k v Hin) as [Hk Hv].
      rewrite !dict_get_set.
      destruct Hk; subst k; exact Hv.
    + destruct Hin as [H|[H|[]]]; injection H as <- <-;
        now rewrite !dict_get_set.
  - cbn [fst snd] in *. now apply Hbase.
Qed.

(** The loop over the metadata makes a required field of every entry. *)
Lemma add_metadata_adds (md fields : dict) (k : string) (v : json) :
  In (k, v) md ->
  Py.dict_get (Upload.add_metadata fields md) ("x-amz-meta-" ++ k) <> None.
Proof.
  revert fields. induction md as [|[k0 v0] md IH]; intros fields Hin.
  - destruct Hin.
  - rewrite add_metadata_cons. destruct Hin as [[= -> ->]|Hin].
    + apply add_metadata_keeps. rewrite dict_get_set, String.eqb_refl.
      discriminate.
    + now apply IH.
Qed.

(** No condition is ever made for a metadata entry: whatever the caller
    sends under a key other than [uploaded-at] becomes a required field
    that no condition binds. *)
Lemma metadata_fields_are_unconstrained
    (event : json) (d md : dict) (k : string) (v : json) (w : world) :
  parse_body E event = Returned (JObj d) ->
  missing_or_empty d "filename" = false ->
  allowed cfg (field d "content_type" (JStr "application/octet-stream"))
    = true ->
  field d "metadata" (JObj []) = JObj md ->
  In (k, v) md ->
  k <> "uploaded-at" ->
  exists (key : string) (fields : dict) (conditions : list json),
    s3_calls (snd (Upload.lambda_handler E cfg event w)) =
      (s3_calls w ++
       [Generate_presigned_post (Upload.BUCKET_NAME cfg) key fields
          conditions (Upload.EXPIRATION_TIME cfg)])%list /\
    Py.dict_get fields ("x-amz-meta-" ++ k) <> None /\
    forall c : json,
      In c conditions -> binds_field ("x-amz-meta-" ++ k) c = false.
Proof.
  intros Hbody Hname Hallowed Hmd Hin Hk.
  destruct (upload_valid_request E cfg event d md w Hbody Hname Hallowed Hmd)
    as (u & Hu & Hworld & _).
  do 3 eexists. split; [rewrite Hworld; apply log_call_calls|].
  set (ct := field d "content_type" (JStr "application/octet-stream")) in *.
  set (fields := Upload.add_metadata _ md) in *.
  assert (Hfield : Py.dict_get fields ("x-amz-meta-" ++ k) <> None).
  { unfold fields. now apply add_metadata_adds with (v := v). }
  assert (Hother : String.eqb ("x-amz-meta-" ++ k) Upload.uploaded_at_field
                   = false).
  { change (String.eqb k "uploaded-at" = false). now apply String.eqb_neq. }
  assert (Hbase : forall c,
    In c [JObj [(Upload.content_type_field, ct)];
          JArr [JStr "content-length-range"; JInt 1;
                JInt (Upload.MAX_FILE_SIZE cfg)];
          JObj [(Upload.uploaded_at_field, u)]] ->
    binds_field ("x-amz-meta-" ++ k) c = false).
  { intros c [<-|[<-|[<-|[]]]]; [reflexivity | reflexivity | exact Hother]. }
  destruct (negb (String.eqb (Upload.KMS_KEY_ID cfg) EmptyString)).
  - unfold Upload.encryption_setup. cbn [fst snd]. split.
    + rewrite !dict_get_set.
      repeat match goal with
             | |- context [if ?b then _ else _] => destruct b
             end; trivial; discriminate.
    + intros c Hc. rewrite <- app_assoc in Hc.
      apply in_app_or in Hc as [Hc|Hc].
      * apply filter_In in Hc as [Hc _]. now apply Hbase.
      * destruct Hc as [<-|[<-|[]]]; reflexivity.
  - cbn [fst snd]. split; [exact Hfield | exact Hbase].
Qed.

(** With encryption configured, a content type whose condition prints the
    name of the encryption-algorithm field loses its condition: the
    required fields hold [Content-Type] and no condition binds it. *)
Lemma clashing_content_type_is_unconstrained
    (event : json) (d md : dict) (w : world) :
  parse_body E event = Returned (JObj d) ->
  missing_or_empty d "filename" = false ->
  allowed cfg (field d "content_type" (JStr "application/octet-stream"))
    = true ->
  field d "metadata" (JObj []) = JObj md ->
  Upload.KMS_KEY_ID cfg <> EmptyString ->
  Py.contains Upload.sse_field
    (Py.str (JObj [(Upload.content_type_field,
                    field d "content_type"
                      (JStr "application/octet-stream"))])) = true ->
  exists (key : string) (fields : dict) (conditions : list json),
    s3_calls (snd (Upload.lambda_handler E cfg event w)) =
      (s3_calls w ++
       [Generate_presigned_post (Upload.BUCKET_NAME cfg) key fields
          conditions (Upload.EXPIRATION_TIME cfg)])%list /\
    Py.dict_get fields Upload.content_type_field =
      Some (field d "content_type" (JStr "application/octet-stream")) /\
    count (binds_field Upload.content_type_field) conditions = 0%nat.
Proof.
  intros Hbody Hname Hallowed Hmd Hkms Hclash.
  destruct (upload_valid_request E cfg event d md w Hbody Hname Hallowed Hmd)
    as (u & Hu & Hworld & _).
  apply String.eqb_neq in Hkms. rewrite Hkms in Hworld. cbn [negb] in Hworld.
  do 3 eexists. split; [rewrite Hworld; apply log_call_calls|].
  split.
  - rewrite encryption_setup_keeps_field by reflexivity.
    now rewrite add_metadata_content_type.
  - unfold Upload.encryption_setup. cbn [fst snd filter].
    rewrite Hclash. cbn [negb].
    rewrite size_condition_is_kept. cbn [negb].
    destruct (negb (Py.contains Upload.sse_field
                      (Py.str (JObj [(Upload.uploaded_at_field, u)]))));
      reflexivity.
Qed.

End Policy.

(** ** The handlers on concrete requests *)

(** C1. With encryption configured and the content type
    [x-amz-server-side-encryption], the conditions handed to
    [generate_presigned_post] hold no content-type condition at all, while
    the required fields still hold [Content-Type]: the filter that is to
    remove earlier encryption conditions removes every condition whose
    text mentions the field name. *)
Theorem content_type_condition_is_dropped :
  exists (fields : dict) (conditions : list json),
    s3_calls
      (snd (Upload.lambda_handler Demo.E (Demo.upload_cfg [] Demo.kms_key)
              Demo.clashing_upload initial_world)) =
      [Generate_presigned_post "fortress" "uploads/2024/02/13/120000/doc.pdf"
         fields conditions 300] /\
    Py.dict_get fields "Content-Type" =
      Some (JStr "x-amz-server-side-encryption") /\
    conditions =
      [JArr [JStr "content-length-range"; JInt 1; JInt 10485760];
       JObj [("x-amz-meta-uploaded-at", JStr "2024-02-13T12:00:01.000002")];
       JObj [("x-amz-server-side-encryption", JStr "aws:kms")];
       JObj [("x-amz-server-side-encryption-aws-kms-key-id",
              JStr "alias/fortress")]] /\
    count (binds_field "Content-Type") conditions = 0%nat.
Proof.
  do 2 eexists. split; [vm_compute; reflexivity|].
  repeat split.
Qed.

(** C2. On the input the handler's docstring gives as expected, with
    metadata [user_id = 123], the authorization succeeds and the required
    fields hold [x-amz-meta-user_id = 123], yet no condition binds that
    field: the loop over the metadata adds fields and never a condition. *)
Theorem metadata_field_has_no_condition :
  exists (fields : dict) (conditions : list json),
    s3_calls
      (snd (Upload.lambda_handler Demo.E (Demo.upload_cfg [] EmptyString)
              Demo.documented_upload initial_world)) =
      [Generate_presigned_post "fortress"
         "uploads/2024/02/13/120000/document.pdf" fields conditions 300] /\
    statusCode
      (fst (Upload.lambda_handler Demo.E (Demo.upload_cfg [] EmptyString)
              Demo.documented_upload initial_world)) = 200 /\
    Py.dict_get fields "x-amz-meta-user_id" = Some (JStr "123") /\
    conditions =
      [JObj [("Content-Type", JStr "application/pdf")];
       JArr [JStr "content-length-range"; JInt 1; JInt 10485760];
       JObj [("x-amz-meta-uploaded-at", JStr "2024-02-13T12:00:01.000002")]] /\
    count (binds_field "x-amz-meta-user_id") conditions = 0%nat.
Proof.
  do 2 eexists. split; [vm_compute; reflexivity|].
  repeat split.
Qed.

(** C3 as stated fails: an API Gateway event whose [body] is null holds no
    [filename] and no [object_key], and both handlers answer with the 500
    envelope of an unexpected error, not with a 400. *)
Lemma bodiless_event_is_not_a_validation_error :
  Py.dict_get [("body", JNull)] "filename" = None /\
  Py.dict_get [("body", JNull)] "object_key" = None /\
  Upload.lambda_handler Demo.E (Demo.upload_cfg [] EmptyString)
    (JObj [("body", JNull)]) initial_world =
    (Upload.error_response Demo.E 500
       "Unexpected error: 'NoneType' object has no attribute 'get'",
     initial_world) /\
  Download.lambda_handler Demo.E Demo.download_cfg
    (JObj [("body", JNull)]) initial_world =
    (Download.error_response Demo.E 500
       "Unexpected error: 'NoneType' object has no attribute 'get'",
     initial_world) /\
  statusCode
    (fst (Upload.lambda_handler Demo.E (Demo.upload_cfg [] EmptyString)
            (JObj [("body", JNull)]) initial_world)) <> 400 /\
  statusCode
    (fst (Download.lambda_handler Demo.E Demo.download_cfg
            (JObj [("body", JNull)]) initial_world)) <> 400.
Proof. repeat split; intros H; discriminate H. Qed.

(** C5 as stated fails: a request without a file name whose content type
    is outside the allow-list gets the 400 envelope [filename is required],
    and that message does not hold the rejected content type. *)
Lemma nameless_upload_names_no_content_type :
  Py.in_str_list (JStr "application/x-msdownload") ["application/pdf"] = false /\
  Upload.lambda_handler Demo.E (Demo.upload_cfg ["application/pdf"] EmptyString)
    Demo.nameless_upload initial_world =
    (Upload.error_response Demo.E 400 "filename is required", initial_world) /\
  Py.contains "application/x-msdownload" "filename is required" = false.
Proof. repeat split. Qed.

(** C7 as stated fails: the clock is read twice, and when the second
    reading is later than the first the timestamp among the required
    fields is not the text of the instant the object key is derived from. *)
Lemma timestamp_is_not_the_key_instant :
  exists (fields : dict) (conditions : list json),
    s3_calls
      (snd (Upload.lambda_handler Demo.E (Demo.upload_cfg [] EmptyString)
              Demo.scenario_a initial_world)) =
      [Generate_presigned_post "fortress"
         ("uploads/" ++ Op.strftime (utcnow Demo.E 0) ++ "/doc.pdf")
         fields conditions 300] /\
    Op.strftime (utcnow Demo.E 0) = "2024/02/13/120000" /\
    Op.isoformat (utcnow Demo.E 0) = "2024-02-13T12:00:00.999999" /\
    Py.dict_get fields "x-amz-meta-uploaded-at" =
      Some (JStr "2024-02-13T12:00:01.000002") /\
    Py.dict_get fields "x-amz-meta-uploaded-at" <>
      Some (JStr (Op.isoformat (utcnow Demo.E 0))).
Proof.
  do 2 eexists. split; [vm_compute; reflexivity|].
  repeat split. vm_compute. discriminate.
Qed.

(** C8. The 400 envelope of the upload handler and the 404 envelope of the
    download handler carry neither [Access-Control-Allow-Methods] nor
    [Access-Control-Allow-Headers]: [error_response] leaves out the two
    entries that [success_response] sets. *)
Theorem error_envelopes_lack_post_headers :
  statusCode
    (fst (Upload.lambda_handler Demo.E (Demo.upload_cfg [] EmptyString)
            (JObj []) initial_world)) = 400 /\
  header
    (fst (Upload.lambda_handler Demo.E (Demo.upload_cfg [] EmptyString)
            (JObj []) initial_world))
    "Access-Control-Allow-Methods" = None /\
  header
    (fst (Upload.lambda_handler Demo.E (Demo.upload_cfg [] EmptyString)
            (JObj []) initial_world))
    "Access-Control-Allow-Headers" = None /\
  statusCode
    (fst (Download.lambda_handler Demo.E Demo.download_cfg
            Demo.scenario_c initial_world)) = 404 /\
  header
    (fst (Download.lambda_handler Demo.E Demo.download_cfg
            Demo.scenario_c initial_world))
    "Access-Control-Allow-Methods" = None /\
  header
    (fst (Download.lambda_handler Demo.E Demo.download_cfg
            Demo.scenario_c initial_world))
    "Access-Control-Allow-Headers" = None.
Proof. repeat split. Qed.

(** ** The theorems at the scenarios of the specification *)

(** C3 on the empty request: both handlers refuse it and call nothing. *)
Lemma missing_identifier_is_rejected_on_empty_request :
  Upload.lambda_handler Demo.E (Demo.upload_cfg [] EmptyString)
    (JObj []) initial_world =
    (Upload.error_response Demo.E 400 "filename is required", initial_world) /\
  Download.lambda_handler Demo.E Demo.download_cfg (JObj []) initial_world =
    (Download.error_response Demo.E 400 "object_key is required",
     initial_world).
Proof.
  destruct (missing_identifier_is_rejected Demo.E
              (Demo.upload_cfg [] EmptyString) Demo.download_cfg
              (JObj []) [] initial_world eq_refl) as [Hup Hdown].
  split; [apply Hup | apply Hdown]; reflexivity.
Defined.

(** C10 on an event whose body is the text [not json]. *)
Lemma malformed_body_is_unexpected_error_on_text :
  statusCode
    (fst (Upload.lambda_handler Demo.E (Demo.upload_cfg [] EmptyString)
            Demo.malformed_event initial_world)) = 500 /\
  statusCode
    (fst (Download.lambda_handler Demo.E Demo.download_cfg
            Demo.malformed_event initial_world)) = 500.
Proof.
  destruct (malformed_body_is_unexpected_error Demo.E
              (Demo.upload_cfg [] EmptyString) Demo.download_cfg
              [("body", JStr "not json")] "not json"
              "Expecting value: line 1 column 1 (char 0)" initial_world
              eq_refl eq_refl) as [Hup Hdown].
  unfold Demo.malformed_event. rewrite Hup, Hdown. split; reflexivity.
Defined.

(** C5, amended, on scenario B: the 400 envelope names the content type. *)
Lemma disallowed_content_type_is_rejected_on_scenario_b :
  exists message : string,
    Upload.lambda_handler Demo.E
      (Demo.upload_cfg ["application/pdf"] EmptyString)
      Demo.scenario_b initial_world =
      (Upload.error_response Demo.E 400 message, initial_world) /\
    Py.contains "application/x-msdownload" message = true.
Proof.
  apply (disallowed_content_type_is_rejected Demo.E
           (Demo.upload_cfg ["application/pdf"] EmptyString)
           Demo.scenario_b
           [("filename", JStr "x.exe");
            ("content_type", JStr "application/x-msdownload")]
           initial_world).
  - reflexivity.
  - reflexivity.
  - simpl. discriminate.
  - reflexivity.
Defined.

(** C4 on scenario C: the object is absent and nothing is presigned. *)
Lemma absent_object_is_not_found_on_scenario_c :
  Download.lambda_handler Demo.E Demo.download_cfg Demo.scenario_c
    initial_world =
    (Download.error_response Demo.E 404 "Object not found",
     {| clock_reads := 0;
        s3_calls := [Head_object "fortress" (JStr Demo.absent_key)] |}).
Proof.
  apply (absent_object_is_not_found Demo.E Demo.download_cfg Demo.scenario_c
           [("object_key", JStr Demo.absent_key)]
           "An error occurred (404) when calling the HeadObject operation: Not Found"
           initial_world); reflexivity.
Defined.

(** C9 on scenario D: the override reaches the collaborator as given. *)
Lemma disposition_override_is_passed_on_scenario_d :
  s3_calls
    (snd (Download.lambda_handler Demo.E Demo.download_cfg Demo.scenario_d
            initial_world)) =
    [Head_object "fortress" (JStr "k");
     Generate_presigned_url "get_object"
       [("Bucket", JStr "fortress"); ("Key", JStr "k");
        ("ResponseContentDisposition", JStr "attachment; filename=out.pdf")]
       300] /\
  statusCode
    (fst (Download.lambda_handler Demo.E Demo.download_cfg Demo.scenario_d
            initial_world)) = 200.
Proof.
  destruct (disposition_override_is_passed_when_supplied Demo.E
              Demo.download_cfg Demo.scenario_d
              [("object_key", JStr "k");
               ("response_content_disposition",
                JStr "attachment; filename=out.pdf")]
              initial_world eq_refl eq_refl eq_refl) as [Hgiven _].
  destruct (Hgiven "attachment; filename=out.pdf" eq_refl) as [Hcalls Hresp].
  - discriminate.
  - split; [exact Hcalls|].
    now rewrite (Hresp "https://s3.amazonaws.com/signed" eq_refl).
Defined.

(** C6 on scenario A: the key is built from the first clock reading. *)
Lemma object_key_is_derived_from_clock_on_scenario_a :
  exists (fields : dict) (conditions : list json),
    s3_calls
      (snd (Upload.lambda_handler Demo.E (Demo.upload_cfg [] EmptyString)
              Demo.scenario_a initial_world)) =
      [Generate_presigned_post "fortress" "uploads/2024/02/13/120000/doc.pdf"
         fields conditions 300].
Proof.
  destruct (object_key_is_derived_from_clock Demo.E
              (Demo.upload_cfg [] EmptyString) Demo.scenario_a
              [("filename", JStr "doc.pdf");
               ("content_type", JStr "application/pdf")]
              [] "doc.pdf" initial_world)
    as (YYYY & MM & DD & HHMMSS & fields & conditions
        & -> & -> & -> & -> & _ & _ & _ & _ & Hcalls & _).
  - reflexivity.
  - reflexivity.
  - discriminate.
  - reflexivity.
  - reflexivity.
  - unfold valid_datetime. simpl. lia.
  - exists fields, conditions. exact Hcalls.
Defined.

(** C7, amended, on scenario A: the timestamp is the second reading. *)
Lemma upload_timestamp_is_the_second_reading_on_scenario_a :
  exists (fields : dict) (conditions : list json),
    s3_calls
      (snd (Upload.lambda_handler Demo.E (Demo.upload_cfg [] EmptyString)
              Demo.scenario_a initial_world)) =
      [Generate_presigned_post "fortress" "uploads/2024/02/13/120000/doc.pdf"
         fields conditions 300] /\
    Py.dict_get fields Upload.uploaded_at_field =
      Some (JStr "2024-02-13T12:00:01.000002").
Proof.
  destruct (upload_timestamp_is_the_second_reading Demo.E
              (Demo.upload_cfg [] EmptyString) Demo.scenario_a
              [("filename", JStr "doc.pdf");
               ("content_type", JStr "application/pdf")]
              [] initial_world eq_refl eq_refl eq_refl eq_refl eq_refl)
    as (fields & conditions & Hcalls & Htag & _).
  exists fields, conditions. split; [exact Hcalls | exact Htag].
Defined.

(** The headers of the refusal of the empty upload request. *)
Lemma cross_origin_headers_of_a_refusal :
  header
    (fst (Upload.lambda_handler Demo.E (Demo.upload_cfg [] EmptyString)
            (JObj []) initial_world))
    "Access-Control-Allow-Origin" = Some "*".
Proof.
  apply (cross_origin_headers_of_responses Demo.E
           (Demo.upload_cfg [] EmptyString) Demo.download_cfg
           (JObj []) initial_world).
  left. reflexivity.
Defined.

(** * Further properties of the handlers *)

(** ** What a handler answers, whatever the collaborator does *)

Section Outcomes.
Variable E : env.

(** The upload handler on a request that passes validation: its answer
    follows what [generate_presigned_post] does. *)
Lemma upload_valid_request_outcome
    (cfg : Upload.config) (event : json) (d md : dict) (w : world) :
  parse_body E event = Returned (JObj d) ->
  missing_or_empty d "filename" = false ->
  allowed cfg (field d "content_type" (JStr "application/octet-stream"))
    = true ->
  field d "metadata" (JObj []) = JObj md ->
  exists (object_key : string) (fields : dict) (conditions : list json),
    Upload.lambda_handler E cfg event w =
      (match generate_presigned_post E (Upload.BUCKET_NAME cfg) object_key
               fields conditions (Upload.EXPIRATION_TIME cfg) with
       | Returned resp =>
           match Upload.max_file_size_mb E cfg with
           | Returned size_mb =>
               Upload.success_response E
                 (JObj [("upload_url", JStr (post_url resp));
                        ("fields", JObj (post_fields resp));
                        ("object_key", JStr object_key);
                        ("expires_in", JInt (Upload.EXPIRATION_TIME cfg));
                        ("max_file_size_mb", size_mb)])
           | Raised e => Upload.error_response E 500 (failure_message e)
           end
       | Raised e => Upload.error_response E 500 (failure_message e)
       end,
       log_call
         (Generate_presigned_post (Upload.BUCKET_NAME cfg) object_key
            fields conditions (Upload.EXPIRATION_TIME cfg))
         {| clock_reads := S (S (clock_reads w)); s3_calls := s3_calls w |}).
Proof.
  intros Hbody Hname Hallowed Hmd.
  apply not_missing_truthy in Hname.
  set (content_type := field d "content_type" (JStr "application/octet-stream"))
    in *.
  set (fields :=
         Upload.add_metadata
           [(Upload.content_type_field, content_type);
            (Upload.uploaded_at_field,
             JStr (Op.isoformat (utcnow E (S (clock_reads w)))))] md).
  destruct (Py.dict_get fields Upload.uploaded_at_field) as [u|] eqn:Hu.
  2:{ exfalso. revert Hu. apply add_metadata_keeps. discriminate. }
  set (fc :=
         if negb (String.eqb (Upload.KMS_KEY_ID cfg) EmptyString)
         then Upload.encryption_setup cfg
                (fields,
                 [JObj [(Upload.content_type_field, content_type)];
                  JArr [JStr "content-length-range"; JInt 1;
                        JInt (Upload.MAX_FILE_SIZE cfg)];
                  JObj [(Upload.uploaded_at_field, u)]])
         else (fields,
               [JObj [(Upload.content_type_field, content_type)];
                JArr [JStr "content-length-range"; JInt 1;
                      JInt (Upload.MAX_FILE_SIZE cfg)];
                JObj [(Upload.uploaded_at_field, u)]])).
  exists ("uploads/" ++ Op.strftime (utcnow E (clock_reads w)) ++ "/"
            ++ Py.str (field d "filename" JNull)), (fst fc), (snd fc).
  unfold Upload.lambda_handler, Upload.try_block. run_monad.
  rewrite Hbody, !get_object_field, Hname, Hmd. cbn [negb].
  assert (Hgate :
    (match Upload.ALLOWED_CONTENT_TYPES cfg with [] => false | _ => true end
     && negb (Py.in_str_list content_type (Upload.ALLOWED_CONTENT_TYPES cfg)))
    = false).
  { unfold allowed in Hallowed.
    destruct (Upload.ALLOWED_CONTENT_TYPES cfg); [reflexivity|].
    now rewrite Hallowed. }
  fold content_type. rewrite Hgate.
  unfold now. cbn [clock_reads s3_calls Op.items].
  fold fields. unfold Op.getitem. rewrite Hu.
  unfold s3_generate_presigned_post. cbn beta iota. fold fc.
  match goal with
  | |- context [generate_presigned_post E ?b ?k ?f ?c ?x] =>
      destruct (generate_presigned_post E b k f c x) as [r|[c0 t0|n0 t0]]
  end; try reflexivity.
  cbn beta iota.
  destruct (Upload.max_file_size_mb E cfg) as [m|[c1 t1|n1 t1]]; reflexivity.
Qed.

(** The download handler on a request with an object key: its answer
    follows what [head_object] and [generate_presigned_url] do. *)
Lemma download_keyed_request_outcome
    (cfg : Download.config) (event : json) (d : dict) (w : world) :
  parse_body E event = Returned (JObj d) ->
  missing_or_empty d "object_key" = false ->
  let object_key := field d "object_key" JNull in
  let disposition := field d "response_content_disposition" JNull in
  let params :=
    if Py.truthy disposition
    then [("Bucket", JStr (Download.BUCKET_NAME cfg)); ("Key", object_key);
          ("ResponseContentDisposition", disposition)]
    else [("Bucket", JStr (Download.BUCKET_NAME cfg)); ("Key", object_key)] in
  let checked :=
    log_call (Head_object (Download.BUCKET_NAME cfg) object_key) w in
  let signed :=
    log_call (Generate_presigned_url "get_object" params
                (Download.EXPIRATION_TIME cfg)) checked in
  Download.lambda_handler E cfg event w =
    match head_object E (Download.BUCKET_NAME cfg) object_key with
    | Returned _ =>
        (match generate_presigned_url E "get_object" params
                 (Download.EXPIRATION_TIME cfg) with
         | Returned url =>
             Download.success_response E
               (JObj [("download_url", JStr url);
                      ("object_key", object_key);
                      ("expires_in", JInt (Download.EXPIRATION_TIME cfg))])
         | Raised e => Download.error_response E 500 (failure_message e)
         end, signed)
    | Raised (ClientError code text) =>
        (if String.eqb code "404"
         then Download.error_response E 404 "Object not found"
         else Download.error_response E 500
                (failure_message (ClientError code text)), checked)
    | Raised e => (Download.error_response E 500 (failure_message e), checked)
    end.
Proof.
  intros Hbody Hkey. cbn zeta.
  apply not_missing_truthy in Hkey.
  unfold Download.lambda_handler, Download.try_block. run_monad.
  rewrite Hbody, !get_object_field, Hkey. cbn [negb].
  unfold Download.check_exists, s3_head_object.
  destruct (head_object E _ _) as [[]|[code text|name text]]; cbn beta iota.
  - unfold s3_generate_presigned_url.
    destruct (Py.truthy (field d "response_content_disposition" JNull));
      cbn [Py.dict_set String.eqb Ascii.eqb Bool.eqb];
      match goal with
      | |- context [generate_presigned_url E ?m ?p ?t] =>
          destruct (generate_presigned_url E m p t) as [url|[c t'|n t']]
      end; reflexivity.
  - destruct (String.eqb code "404"); reflexivity.
  - reflexivity.
Qed.

End Outcomes.

(** ** Failures of the collaborator and malformed requests *)

Section Failures.
Variable E : env.
Variable ucfg : Upload.config.
Variable dcfg : Download.config.

(** X1. When [generate_presigned_post] raises for a request that passed
    validation, the upload handler answers with the 500 envelope of the
    matching [except] clause -- [Error generating presigned URL: ...] for a
    client error, [Unexpected error: ...] for anything else -- after that
    one call: it does not retry. *)
Theorem upload_signing_failure_is_500
    (event : json) (d md : dict) (w : world) (e : exn) :
  parse_body E event = Returned (JObj d) ->
  missing_or_empty d "filename" = false ->
  allowed ucfg (field d "content_type" (JStr "application/octet-stream"))
    = true ->
  field d "metadata" (JObj []) = JObj md ->
  (forall key fields conditions,
     generate_presigned_post E (Upload.BUCKET_NAME ucfg) key fields conditions
       (Upload.EXPIRATION_TIME ucfg) = Raised e) ->
  fst (Upload.lambda_handler E ucfg event w) =
    Upload.error_response E 500 (failure_message e) /\
  exists (key : string) (fields : dict) (conditions : list json),
    s3_calls (snd (Upload.lambda_handler E ucfg event w)) =
      (s3_calls w ++
       [Generate_presigned_post (Upload.BUCKET_NAME ucfg) key fields
          conditions (Upload.EXPIRATION_TIME ucfg)])%list.
Proof.
  intros Hbody Hname Hallowed Hmd Hdown.
  destruct (upload_valid_request_outcome E ucfg event d md w
              Hbody Hname Hallowed Hmd) as (key & fields & conditions & ->).
  rewrite Hdown. cbn [fst snd]. split; [reflexivity|].
  exists key, fields, conditions. apply log_call_calls.
Qed.

(** X2. When the existence check fails with anything but the client error
    of code 404, the download handler answers with the 500 envelope of the
    matching [except] clause, and the check is the only S3 call: nothing is
    presigned for an object whose existence is unknown. *)
Theorem download_check_failure_is_500
    (event : json) (d : dict) (w : world) (e : exn) :
  parse_body E event = Returned (JObj d) ->
  missing_or_empty d "object_key" = false ->
  head_object E (Download.BUCKET_NAME dcfg) (field d "object_key" JNull) =
    Raised e ->
  (forall text, e <> ClientError "404" text) ->
  Download.lambda_handler E dcfg event w =
    (Download.error_response E 500 (failure_message e),
     log_call (Head_object (Download.BUCKET_NAME dcfg)
                 (field d "object_key" JNull)) w).
Proof.
  intros Hbody Hkey Hhead Hcode.
  rewrite (download_keyed_request_outcome E dcfg event d w Hbody Hkey).
  cbn zeta. rewrite Hhead.
  destruct e as [code text|name text]; [|reflexivity].
  destruct (String.eqb code "404") eqn:H404; [|reflexivity].
  apply String.eqb_eq in H404. subst code. now elim (Hcode text).
Qed.

(** X3. When the object exists and [generate_presigned_url] raises, the
    download handler answers with the 500 envelope of the matching
    [except] clause, after the existence check and that one signing call. *)
Theorem download_signing_failure_is_500
    (event : json) (d : dict) (w : world) (e : exn) :
  parse_body E event = Returned (JObj d) ->
  missing_or_empty d "object_key" = false ->
  head_object E (Download.BUCKET_NAME dcfg) (field d "object_key" JNull) =
    Returned tt ->
  (forall params,
     generate_presigned_url E "get_object" params
       (Download.EXPIRATION_TIME dcfg) = Raised e) ->
  fst (Download.lambda_handler E dcfg event w) =
    Download.error_response E 500 (failure_message e) /\
  exists params : dict,
    s3_calls (snd (Download.lambda_handler E dcfg event w)) =
      (s3_calls w ++
       [Head_object (Download.BUCKET_NAME dcfg) (field d "object_key" JNull);
        Generate_presigned_url "get_object" params
          (Download.EXPIRATION_TIME dcfg)])%list.
Proof.
  intros Hbody Hkey Hhead Hdown.
  rewrite (download_keyed_request_outcome E dcfg event d w Hbody Hkey).
  cbn zeta. rewrite Hhead, Hdown. cbn [fst snd]. split; [reflexivity|].
  eexists. unfold log_call. cbn [s3_calls]. now rewrite <- app_assoc.
Qed.

(** Both handlers read the event through [parse_body] only. *)
Lemma handlers_follow_the_request (event event' : json) (w : world) :
  parse_body E event = parse_body E event' ->
  Upload.lambda_handler E ucfg event w = Upload.lambda_handler E ucfg event' w /\
  Download.lambda_handler E dcfg event w =
    Download.lambda_handler E dcfg event' w.
Proof.
  intros H.
  unfold Upload.lambda_handler, Upload.try_block,
    Download.lambda_handler, Download.try_block. run_monad.
  now rewrite H.
Qed.

(** X4. The three shapes of an event are answered alike: a request object
    (one that has no [body] entry of its own) gets the same answer and
    causes the same calls whether it is the event itself, the decoded
    [body] of the event, or the JSON text of that [body]. *)
Theorem event_shapes_agree (outer d : dict) (w : world) :
  Py.dict_get d "body" = None ->
  (Py.dict_get outer "body" = Some (JObj d) \/
   exists text, Py.dict_get outer "body" = Some (JStr text) /\
                json_loads E text = Returned (JObj d)) ->
  Upload.lambda_handler E ucfg (JObj outer) w =
    Upload.lambda_handler E ucfg (JObj d) w /\
  Download.lambda_handler E dcfg (JObj outer) w =
    Download.lambda_handler E dcfg (JObj d) w.
Proof.
  intros Hraw Hshape.
  apply handlers_follow_the_request.
  assert (Hd : parse_body E (JObj d) = Returned (JObj d)).
  { unfold parse_body, Op.has_body, Py.dict_has. now rewrite Hraw. }
  rewrite Hd.
  destruct Hshape as [Hobj | (text & Htext & Hloads)].
  - unfold parse_body, Op.has_body, Op.get_body, Py.dict_has.
    now rewrite Hobj.
  - now rewrite (parse_body_text E outer text Htext).
Qed.

(** X5. When the request is read from the event without an exception
    (the event itself when it has no [body] entry, else its [body],
    decoded when it is text) and is a value other than an object -- an
    array, a number, text or null -- this is not a validation error: both
    handlers answer with the 500 envelope [Unexpected error: 'T' object has
    no attribute 'get'], where [T] is the Python type of the value, and
    the world is left as it was. Events on which reading the request
    raises are not covered here. *)
Theorem non_object_request_is_unexpected_error
    (event v : json) (w : world) :
  parse_body E event = Returned v ->
  (forall d, v <> JObj d) ->
  Upload.lambda_handler E ucfg event w =
    (Upload.error_response E 500
       ("Unexpected error: '" ++ Py.type_name v
          ++ "' object has no attribute 'get'"), w) /\
  Download.lambda_handler E dcfg event w =
    (Download.error_response E 500
       ("Unexpected error: '" ++ Py.type_name v
          ++ "' object has no attribute 'get'"), w).
Proof.
  intros Hbody Hv.
  unfold Upload.lambda_handler, Upload.try_block,
    Download.lambda_handler, Download.try_block. run_monad.
  rewrite Hbody.
  destruct v; try (split; reflexivity).
  now elim (Hv members).
Qed.

(** X6. Metadata that is present and not an object (text, a list, null)
    makes the upload handler answer with the 500 envelope
    [Unexpected error: 'T' object has no attribute 'items'], although the
    file name and the content type passed validation; no S3 call is
    issued. *)
Theorem upload_metadata_must_be_an_object
    (event : json) (d : dict) (m : json) (w : world) :
  parse_body E event = Returned (JObj d) ->
  missing_or_empty d "filename" = false ->
  allowed ucfg (field d "content_type" (JStr "application/octet-stream"))
    = true ->
  Py.dict_get d "metadata" = Some m ->
  (forall md, m <> JObj md) ->
  fst (Upload.lambda_handler E ucfg event w) =
    Upload.error_response E 500
      ("Unexpected error: '" ++ Py.type_name m
         ++ "' object has no attribute 'items'") /\
  s3_calls (snd (Upload.lambda_handler E ucfg event w)) = s3_calls w.
Proof.
  intros Hbody Hname Hallowed Hmeta Hm.
  apply not_missing_truthy in Hname.
  unfold Upload.lambda_handler, Upload.try_block. run_monad.
  rewrite Hbody, !get_object_field, Hname. cbn [negb].
  rewrite (present_field _ _ _ (JObj []) Hmeta).
  assert (Hgate :
    (match Upload.ALLOWED_CONTENT_TYPES ucfg with [] => false | _ => true end
     && negb (Py.in_str_list
                (field d "content_type" (JStr "application/octet-stream"))
                (Upload.ALLOWED_CONTENT_TYPES ucfg))) = false).
  { unfold allowed in Hallowed.
    destruct (Upload.ALLOWED_CONTENT_TYPES ucfg); [reflexivity|].
    now rewrite Hallowed. }
  rewrite Hgate. unfold now. cbn [clock_reads s3_calls].
  destruct m; try (split; reflexivity).
  now elim (Hm members).
Qed.

End Failures.

(** ** The fields and conditions of an upload *)

Lemma count_app (p : json -> bool) (a b : list json) :
  count p (a ++ b) = (count p a + count p b)%nat.
Proof. unfold count. now rewrite filter_app, length_app. Qed.

Lemma count_none (p : json -> bool) (l : list json) :
  (forall c, In c l -> p c = false) -> count p l = 0%nat.
Proof.
  unfold count. induction l as [|c l IH]; intros H; simpl; [reflexivity|].
  rewrite (H c (or_introl eq_refl)). apply IH.
  intros c' Hc'. apply H. now right.
Qed.

Lemma metadata_key_eqb (k k' : string) :
  String.eqb ("x-amz-meta-" ++ k) ("x-amz-meta-" ++ k') = String.eqb k k'.
Proof. reflexivity. Qed.

(** The loop writes under the prefix [x-amz-meta-] only. *)
Lemma add_metadata_other_keys (md fields : dict) (k : string) :
  prefix "x-amz-meta-" k = false ->
  Py.dict_get (Upload.add_metadata fields md) k = Py.dict_get fields k.
Proof.
  intros Hk. revert fields.
  induction md as [|[k0 v0] md IH]; intros fields; [reflexivity|].
  rewrite add_metadata_cons, IH, dict_get_set.
  destruct (String.eqb k ("x-amz-meta-" ++ k0)) eqn:Heq; [|reflexivity].
  apply String.eqb_eq in Heq. subst k.
  now rewrite prefix_app in Hk.
Qed.

Lemma add_metadata_untouched (md fields : dict) (k : string) :
  ~ In k (map fst md) ->
  Py.dict_get (Upload.add_metadata fields md) ("x-amz-meta-" ++ k) =
    Py.dict_get fields ("x-amz-meta-" ++ k).
Proof.
  revert fields.
  induction md as [|[k0 v0] md IH]; intros fields Hk; [reflexivity|].
  rewrite add_metadata_cons, IH by (intros H; apply Hk; now right).
  rewrite dict_get_set, metadata_key_eqb.
  destruct (String.eqb k k0) eqn:Heq; [|reflexivity].
  apply String.eqb_eq in Heq. subst k0. elim Hk. now left.
Qed.

(** With distinct keys, as a decoded JSON object has them, each metadata
    entry ends up under its prefixed name, printed by [str]. *)
Lemma add_metadata_lookup (md fields : dict) (k : string) (v : json) :
  NoDup (map fst md) ->
  In (k, v) md ->
  Py.dict_get (Upload.add_metadata fields md) ("x-amz-meta-" ++ k) =
    Some (JStr (Py.str v)).
Proof.
  revert fields.
  induction md as [|[k0 v0] md IH]; intros fields Hnd Hin; [destruct Hin|].
  cbn [map fst] in Hnd. apply NoDup_cons_iff in Hnd as [Hfresh Hnd].
  rewrite add_metadata_cons.
  destruct Hin as [[= -> ->]|Hin].
  - rewrite add_metadata_untouched by exact Hfresh.
    now rewrite dict_get_set, String.eqb_refl.
  - now apply IH.
Qed.

Lemma filter_keeps_none (p q : json -> bool) (l : list json) :
  (forall c, In c l -> q c = false) ->
  forall c, In c (filter p l) -> q c = false.
Proof. intros H c Hc. apply filter_In in Hc as [Hc _]. now apply H. Qed.

Section Fields.
Variable E : env.
Variable cfg : Upload.config.

(** X7. With a KMS key configured, every request that passes validation is
    presigned with the two encryption conditions as the last two
    conditions, each exactly once, whatever the content type and the
    metadata are; the required fields hold the algorithm [aws:kms] and the
    configured key identifier. *)
Theorem encryption_pair_is_sent_exactly_once
    (event : json) (d md : dict) (w : world) :
  parse_body E event = Returned (JObj d) ->
  missing_or_empty d "filename" = false ->
  allowed cfg (field d "content_type" (JStr "application/octet-stream"))
    = true ->
  field d "metadata" (JObj []) = JObj md ->
  Upload.KMS_KEY_ID cfg <> EmptyString ->
  exists (key : string) (fields : dict) (conditions earlier : list json),
    s3_calls (snd (Upload.lambda_handler E cfg event w)) =
      (s3_calls w ++
       [Generate_presigned_post (Upload.BUCKET_NAME cfg) key fields
          conditions (Upload.EXPIRATION_TIME cfg)])%list /\
    conditions =
      (earlier ++
       [JObj [(Upload.sse_field, JStr "aws:kms")];
        JObj [(Upload.sse_key_id_field, JStr (Upload.KMS_KEY_ID cfg))]])%list /\
    count (binds_field Upload.sse_field) conditions = 1%nat /\
    count (binds_field Upload.sse_key_id_field) conditions = 1%nat /\
    Py.dict_get fields Upload.sse_field = Some (JStr "aws:kms") /\
    Py.dict_get fields Upload.sse_key_id_field =
      Some (JStr (Upload.KMS_KEY_ID cfg)).
Proof.
  intros Hbody Hname Hallowed Hmd Hkms.
  destruct (upload_valid_request E cfg event d md w Hbody Hname Hallowed Hmd)
    as (u & Hu & Hworld & _).
  apply String.eqb_neq in Hkms. rewrite Hkms in Hworld. cbn [negb] in Hworld.
  unfold Upload.encryption_setup in Hworld. cbn [fst snd] in Hworld.
  rewrite <- app_assoc in Hworld. cbn [app] in Hworld.
  do 4 eexists. split; [rewrite Hworld; apply log_call_calls|].
  split; [reflexivity|].
  assert (Hbase : forall k,
    String.eqb k Upload.content_type_field = false ->
    String.eqb k Upload.uploaded_at_field = false ->
    forall c,
      In c (filter
              (fun c => negb (Py.contains Upload.sse_field (Py.str c)))
              [JObj [(Upload.content_type_field,
                      field d "content_type" (JStr "application/octet-stream"))];
               JArr [JStr "content-length-range"; JInt 1;
                     JInt (Upload.MAX_FILE_SIZE cfg)];
               JObj [(Upload.uploaded_at_field, u)]]) ->
      binds_field k c = false).
  { intros k Hk1 Hk2. apply filter_keeps_none.
    intros c [<-|[<-|[<-|[]]]]; [exact Hk1 | reflexivity | exact Hk2]. }
  split; [|split].
  - rewrite count_app,
      (count_none _ _ (Hbase Upload.sse_field eq_refl eq_refl)).
    reflexivity.
  - rewrite count_app,
      (count_none _ _ (Hbase Upload.sse_key_id_field eq_refl eq_refl)).
    reflexivity.
  - rewrite !dict_get_set. split; reflexivity.
Qed.

(** X8. With no KMS key configured, a request that passes validation is
    presigned with exactly three conditions -- the content type, the size
    range from 1 to [MAX_FILE_SIZE] bytes, and the upload timestamp -- each
    binding the value the required fields hold, and the required fields
    hold no encryption entry. *)
Theorem no_encryption_without_a_key
    (event : json) (d md : dict) (w : world) :
  parse_body E event = Returned (JObj d) ->
  missing_or_empty d "filename" = false ->
  allowed cfg (field d "content_type" (JStr "application/octet-stream"))
    = true ->
  field d "metadata" (JObj []) = JObj md ->
  Upload.KMS_KEY_ID cfg = EmptyString ->
  exists (key : string) (fields : dict) (content_type uploaded_at : json),
    s3_calls (snd (Upload.lambda_handler E cfg event w)) =
      (s3_calls w ++
       [Generate_presigned_post (Upload.BUCKET_NAME cfg) key fields
          [JObj [(Upload.content_type_field, content_type)];
           JArr [JStr "content-length-range"; JInt 1;
                 JInt (Upload.MAX_FILE_SIZE_MB cfg * 1024 * 1024)];
           JObj [(Upload.uploaded_at_field, uploaded_at)]]
          (Upload.EXPIRATION_TIME cfg)])%list /\
    Py.dict_get fields Upload.content_type_field = Some content_type /\
    Py.dict_get fields Upload.uploaded_at_field = Some uploaded_at /\
    Py.dict_get fields Upload.sse_field = None /\
    Py.dict_get fields Upload.sse_key_id_field = None.
Proof.
  intros Hbody Hname Hallowed Hmd Hkms.
  destruct (upload_valid_request E cfg event d md w Hbody Hname Hallowed Hmd)
    as (u & Hu & Hworld & _).
  rewrite Hkms in Hworld. cbn [String.eqb negb fst snd] in Hworld.
  do 4 eexists. split; [rewrite Hworld; apply log_call_calls|].
  split; [now rewrite add_metadata_content_type|].
  split; [exact Hu|].
  split; now rewrite add_metadata_other_keys.
Qed.

(** X9. The values of the caller's metadata are sent as text: for a
    request that passes validation, whose metadata has distinct keys, the
    entry [k: v] becomes the required field [x-amz-meta-k] holding
    [str(v)], with or without encryption configured. *)
Theorem metadata_values_are_sent_as_text
    (event : json) (d md : dict) (k : string) (v : json) (w : world) :
  parse_body E event = Returned (JObj d) ->
  missing_or_empty d "filename" = false ->
  allowed cfg (field d "content_type" (JStr "application/octet-stream"))
    = true ->
  field d "metadata" (JObj []) = JObj md ->
  NoDup (map fst md) ->
  In (k, v) md ->
  exists (key : string) (fields : dict) (conditions : list json),
    s3_calls (snd (Upload.lambda_handler E cfg event w)) =
      (s3_calls w ++
       [Generate_presigned_post (Upload.BUCKET_NAME cfg) key fields
          conditions (Upload.EXPIRATION_TIME cfg)])%list /\
    Py.dict_get fields ("x-amz-meta-" ++ k) = Some (JStr (Py.str v)).
Proof.
  intros Hbody Hname Hallowed Hmd Hnd Hin.
  destruct (upload_valid_request E cfg event d md w Hbody Hname Hallowed Hmd)
    as (u & Hu & Hworld & _).
  do 3 eexists. split; [rewrite Hworld; apply log_call_calls|].
  destruct (negb (String.eqb (Upload.KMS_KEY_ID cfg) EmptyString)).
  - rewrite encryption_setup_keeps_field by reflexivity.
    now apply add_metadata_lookup.
  - cbn [fst]. now apply add_metadata_lookup.
Qed.

(** X10. A metadata entry named [uploaded-at] replaces the server's upload
    timestamp: for a request that passes validation, whose metadata has
    distinct keys and holds [uploaded-at: v], the required field
    [x-amz-meta-uploaded-at] holds [str(v)] instead of the clock reading,
    and every condition on that field binds the caller's value. *)
Theorem metadata_can_replace_the_upload_timestamp
    (event : json) (d md : dict) (v : json) (w : world) :
  parse_body E event = Returned (JObj d) ->
  missing_or_empty d "filename" = false ->
  allowed cfg (field d "content_type" (JStr "application/octet-stream"))
    = true ->
  field d "metadata" (JObj []) = JObj md ->
  NoDup (map fst md) ->
  In ("uploaded-at", v) md ->
  exists (key : string) (fields : dict) (conditions : list json),
    s3_calls (snd (Upload.lambda_handler E cfg event w)) =
      (s3_calls w ++
       [Generate_presigned_post (Upload.BUCKET_NAME cfg) key fields
          conditions (Upload.EXPIRATION_TIME cfg)])%list /\
    Py.dict_get fields Upload.uploaded_at_field = Some (JStr (Py.str v)) /\
    forall c : json,
      In c conditions ->
      binds_field Upload.uploaded_at_field c = true ->
      c = JObj [(Upload.uploaded_at_field, JStr (Py.str v))].
Proof.
  intros Hbody Hname Hallowed Hmd Hnd Hin.
  destruct (upload_valid_request E cfg event d md w Hbody Hname Hallowed Hmd)
    as (u & Hu & Hworld & _).
  change Upload.uploaded_at_field with ("x-amz-meta-" ++ "uploaded-at") in Hu.
  rewrite (add_metadata_lookup md _ _ v Hnd Hin) in Hu. injection Hu as <-.
  do 3 eexists. split; [rewrite Hworld; apply log_call_calls|].
  assert (Hbase : forall c,
    In c [JObj [(Upload.content_type_field,
                 field d "content_type" (JStr "application/octet-stream"))];
          JArr [JStr "content-length-range"; JInt 1;
                JInt (Upload.MAX_FILE_SIZE cfg)];
          JObj [(Upload.uploaded_at_field, JStr (Py.str v))]] ->
    binds_field Upload.uploaded_at_field c = true ->
    c = JObj [(Upload.uploaded_at_field, JStr (Py.str v))]).
  { intros c [<-|[<-|[<-|[]]]] Hb; try discriminate Hb; reflexivity. }
  destruct (negb (String.eqb (Upload.KMS_KEY_ID cfg) EmptyString)).
  - split.
    + rewrite encryption_setup_keeps_field by reflexivity.
      change Upload.uploaded_at_field with ("x-amz-meta-" ++ "uploaded-at").
      now apply add_metadata_lookup.
    + unfold Upload.encryption_setup. cbn [fst snd].
      intros c Hc Hb. rewrite <- app_assoc in Hc.
      apply in_app_or in Hc as [Hc|Hc].
      * apply filter_In in Hc as [Hc _]. now apply Hbase.
      * destruct Hc as [<-|[<-|[]]]; discriminate Hb.
  - cbn [fst snd]. split; [|exact Hbase].
    change Upload.uploaded_at_field with ("x-amz-meta-" ++ "uploaded-at").
    now apply add_metadata_lookup.
Qed.

End Fields.

(** ** Every event: what is called, and when *)

Section EveryEvent.
Variable E : env.
Variable ucfg : Upload.config.
Variable dcfg : Download.config.

(** The three ways an upload can go: refused by validation, failed before
    any call, or handed to [generate_presigned_post]. *)
Lemma upload_cases (event : json) (w : world) :
  (exists message,
     Upload.lambda_handler E ucfg event w =
       (Upload.error_response E 400 message, w)) \/
  (exists message w',
     Upload.lambda_handler E ucfg event w =
       (Upload.error_response E 500 message, w') /\
     s3_calls w' = s3_calls w) \/
  (exists (name : string) (fields : dict) (conditions : list json),
     let call :=
       Generate_presigned_post (Upload.BUCKET_NAME ucfg)
         ("uploads/" ++ Op.strftime (utcnow E (clock_reads w)) ++ "/" ++ name)
         fields conditions (Upload.EXPIRATION_TIME ucfg) in
     exists r : response,
       Upload.lambda_handler E ucfg event w =
         (r, log_call call
               {| clock_reads := S (S (clock_reads w));
                  s3_calls := s3_calls w |}) /\
       match generate_presigned_post E (Upload.BUCKET_NAME ucfg)
               ("uploads/" ++ Op.strftime (utcnow E (clock_reads w)) ++ "/"
                  ++ name)
               fields conditions (Upload.EXPIRATION_TIME ucfg) with
       | Returned resp =>
           (exists data, r = Upload.success_response E data /\
              Py.dict_get
                (match data with JObj members => members | _ => [] end)
                "upload_url" = Some (JStr (post_url resp))) \/
           (exists e, Upload.max_file_size_mb E ucfg = Raised e /\
              r = Upload.error_response E 500 (failure_message e))
       | Raised e => r = Upload.error_response E 500 (failure_message e)
       end).
Proof.
  unfold Upload.lambda_handler, Upload.try_block. run_monad.
  destruct (parse_body E event) as [body|[c t|n t]];
    [|right; left; do 2 eexists; split; reflexivity..].
  destruct body; cbn [Op.get Op.attribute_error];
    try (right; left; do 2 eexists; split; reflexivity).
  destruct (negb (Py.truthy _)); [left; eexists; reflexivity|].
  destruct (_ && _); [left; eexists; reflexivity|].
  unfold now. cbn beta iota.
  destruct (Op.items _) as [items|[c t|n t]];
    [|right; left; do 2 eexists; split; reflexivity..].
  destruct (Op.getitem _ _) as [u|[c t|n t]];
    [|right; left; do 2 eexists; split; reflexivity..].
  unfold s3_generate_presigned_post. cbn beta iota.
  right; right.
  match goal with
  | |- context [generate_presigned_post E ?b ?k ?f ?c ?x] =>
      destruct (generate_presigned_post E b k f c x)
        as [resp|[c0 t0|n0 t0]] eqn:Hcall
  end; cbn beta iota;
    [destruct (Upload.max_file_size_mb E ucfg)
       as [m|[c1 t1|n1 t1]] eqn:Hsize| |];
    do 3 eexists; cbn zeta; eexists; (split; [reflexivity|]);
    rewrite Hcall.
  - left. eexists. split; reflexivity.
  - right. eexists. split; reflexivity.
  - right. eexists. split; reflexivity.
  - reflexivity.
  - reflexivity.
Qed.

(** The three ways a download can go. *)
Lemma download_cases (event : json) (w : world) :
  (exists message,
     Download.lambda_handler E dcfg event w =
       (Download.error_response E 400 message, w)) \/
  (exists message,
     Download.lambda_handler E dcfg event w =
       (Download.error_response E 500 message, w)) \/
  (exists d : dict,
     parse_body E event = Returned (JObj d) /\
     missing_or_empty d "object_key" = false).
Proof.
  destruct (parse_body E event) as [body|[c t|n t]] eqn:Hbody.
  - destruct body;
      try (right; left; eexists;
           unfold Download.lambda_handler, Download.try_block; run_monad;
           rewrite Hbody; reflexivity).
    destruct (missing_or_empty members "object_key") eqn:Hkey.
    + left. eexists.
      apply download_rejects_falsy_object_key with (d := members); trivial.
      now apply missing_or_empty_falsy.
    + right; right. now exists members.
  - right; left. eexists.
    unfold Download.lambda_handler, Download.try_block. run_monad.
    rewrite Hbody. reflexivity.
  - right; left. eexists.
    unfold Download.lambda_handler, Download.try_block. run_monad.
    rewrite Hbody. reflexivity.
Qed.

End EveryEvent.

Section Calls.
Variable E : env.
Variable ucfg : Upload.config.
Variable dcfg : Download.config.

(** X11. Whatever the event, the upload handler issues no S3 call or
    exactly one: a [generate_presigned_post] on the configured bucket, with
    the configured expiry, for a key under [uploads/] that starts with the
    time of the first clock reading. It never checks for an object and
    never presigns a download. *)
Theorem upload_issues_one_presign_at_most (event : json) (w : world) :
  s3_calls (snd (Upload.lambda_handler E ucfg event w)) = s3_calls w \/
  exists (name : string) (fields : dict) (conditions : list json),
    s3_calls (snd (Upload.lambda_handler E ucfg event w)) =
      (s3_calls w ++
       [Generate_presigned_post (Upload.BUCKET_NAME ucfg)
          ("uploads/" ++ Op.strftime (utcnow E (clock_reads w)) ++ "/" ++ name)
          fields conditions (Upload.EXPIRATION_TIME ucfg)])%list.
Proof.
  destruct (upload_cases E ucfg event w)
    as [[m ->] | [(m & w' & -> & Hw') | (name & fields & conditions & Hrun)]].
  - now left.
  - now left.
  - cbn zeta in Hrun. destruct Hrun as (r & -> & _).
    right. exists name, fields, conditions. reflexivity.
Qed.

(** X12. Whatever the event, the download handler issues no S3 call, or
    the existence check alone when that check raised, or the existence
    check followed by one [generate_presigned_url] when the check returned;
    the URL is asked for the configured bucket and the very key that was
    checked. No URL is presigned for an object that was not found to
    exist. *)
Theorem download_presigns_only_what_it_checked (event : json) (w : world) :
  s3_calls (snd (Download.lambda_handler E dcfg event w)) = s3_calls w \/
  (exists (key : json) (e : exn),
     head_object E (Download.BUCKET_NAME dcfg) key = Raised e /\
     s3_calls (snd (Download.lambda_handler E dcfg event w)) =
       (s3_calls w ++ [Head_object (Download.BUCKET_NAME dcfg) key])%list) \/
  (exists (key : json) (params : dict),
     head_object E (Download.BUCKET_NAME dcfg) key = Returned tt /\
     Py.dict_get params "Bucket" = Some (JStr (Download.BUCKET_NAME dcfg)) /\
     Py.dict_get params "Key" = Some key /\
     s3_calls (snd (Download.lambda_handler E dcfg event w)) =
       (s3_calls w ++
        [Head_object (Download.BUCKET_NAME dcfg) key;
         Generate_presigned_url "get_object" params
           (Download.EXPIRATION_TIME dcfg)])%list).
Proof.
  destruct (download_cases E dcfg event w)
    as [[m ->] | [[m ->] | (d & Hbody & Hkey)]]; [now left | now left |].
  rewrite (download_keyed_request_outcome E dcfg event d w Hbody Hkey).
  cbn zeta. right.
  destruct (head_object E (Download.BUCKET_NAME dcfg)
              (field d "object_key" JNull)) as [[]|e] eqn:Hhead.
  - right. exists (field d "object_key" JNull).
    cbn [snd]. unfold log_call. cbn [s3_calls]. rewrite <- app_assoc.
    destruct (Py.truthy (field d "response_content_disposition" JNull));
      eexists; (split; [exact Hhead|]);
      (split; [|split]); [| |reflexivity| | |reflexivity]; reflexivity.
  - left. exists (field d "object_key" JNull), e. split; [exact Hhead|].
    destruct e as [code text|name text]; [|reflexivity].
    destruct (String.eqb code "404"); reflexivity.
Qed.

(** X13. A 400 answer costs nothing: whatever the event, when either
    handler answers with status 400 the world is as it was before -- the
    clock was not read and no S3 call was issued. *)
Theorem rejections_touch_nothing (event : json) (w : world) :
  (statusCode (fst (Upload.lambda_handler E ucfg event w)) = 400 ->
   snd (Upload.lambda_handler E ucfg event w) = w) /\
  (statusCode (fst (Download.lambda_handler E dcfg event w)) = 400 ->
   snd (Download.lambda_handler E dcfg event w) = w).
Proof.
  split.
  - destruct (upload_cases E ucfg event w)
      as [[m ->] | [(m & w' & -> & Hw') | (name & fields & conditions & Hrun)]].
    + reflexivity.
    + intros H. discriminate H.
    + cbn zeta in Hrun. destruct Hrun as (r & -> & Hr). cbn [fst snd].
      destruct (generate_presigned_post E _ _ _ _ _) as [resp|e].
      * destruct Hr as [(data & -> & _) | (e & _ & ->)];
          intros H; discriminate H.
      * subst r. intros H. discriminate H.
  - destruct (download_cases E dcfg event w)
      as [[m ->] | [[m ->] | (d & Hbody & Hkey)]].
    + reflexivity.
    + intros H. discriminate H.
    + rewrite (download_keyed_request_outcome E dcfg event d w Hbody Hkey).
      cbn zeta.
      destruct (head_object E _ _) as [[]|[code text|name text]].
      * destruct (generate_presigned_url E _ _ _); intros H; discriminate H.
      * destruct (String.eqb code "404"); intros H; discriminate H.
      * intros H. discriminate H.
Qed.

(** X14. A 200 answer is always backed by the collaborator: whatever the
    event, when the upload handler answers with status 200 its one call to
    [generate_presigned_post] returned and the envelope carries the URL
    that call returned; when the download handler answers with status 200
    the existence check and its call to [generate_presigned_url] both
    returned and the envelope carries the URL that call returned. *)
Theorem successes_carry_the_signed_url (event : json) (w : world) :
  (statusCode (fst (Upload.lambda_handler E ucfg event w)) = 200 ->
   exists (key : string) (fields : dict) (conditions : list json)
          (resp : presigned_post) (data : dict),
     generate_presigned_post E (Upload.BUCKET_NAME ucfg) key fields conditions
       (Upload.EXPIRATION_TIME ucfg) = Returned resp /\
     fst (Upload.lambda_handler E ucfg event w) =
       Upload.success_response E (JObj data) /\
     Py.dict_get data "upload_url" = Some (JStr (post_url resp))) /\
  (statusCode (fst (Download.lambda_handler E dcfg event w)) = 200 ->
   exists (key : json) (params : dict) (url : string),
     head_object E (Download.BUCKET_NAME dcfg) key = Returned tt /\
     generate_presigned_url E "get_object" params
       (Download.EXPIRATION_TIME dcfg) = Returned url /\
     fst (Download.lambda_handler E dcfg event w) =
       Download.success_response E
         (JObj [("download_url", JStr url); ("object_key", key);
                ("expires_in", JInt (Download.EXPIRATION_TIME dcfg))])).
Proof.
  split.
  - destruct (upload_cases E ucfg event w)
      as [[m ->] | [(m & w' & -> & Hw') | (name & fields & conditions & Hrun)]];
      try (intros H; discriminate H).
    cbn zeta in Hrun. destruct Hrun as (r & -> & Hr). cbn [fst].
    destruct (generate_presigned_post E _ _ _ _ _) as [resp|e] eqn:Hcall.
    + destruct Hr as [(data & -> & Hurl) | (e & _ & ->)];
        [|intros H; discriminate H].
      intros _. destruct data; try discriminate Hurl.
      do 5 eexists. split; [exact Hcall|]. split; [reflexivity | exact Hurl].
    + subst r. intros H. discriminate H.
  - destruct (download_cases E dcfg event w)
      as [[m ->] | [[m ->] | (d & Hbody & Hkey)]];
      try (intros H; discriminate H).
    rewrite (download_keyed_request_outcome E dcfg event d w Hbody Hkey).
    cbn zeta.
    destruct (head_object E _ _) as [[]|[code text|name text]] eqn:Hhead.
    + destruct (generate_presigned_url E _ _ _) as [url|e] eqn:Hurl;
        [|intros H; discriminate H].
      intros _. do 3 eexists. split; [exact Hhead|].
      split; [exact Hurl | reflexivity].
    + destruct (String.eqb code "404"); intros H; discriminate H.
    + intros H. discriminate H.
Qed.

(** X15. An override that is empty or null is no override: for a request
    with an object key whose [response_content_disposition] is false in
    Python's sense (the empty text, null, or absent), the URL is asked with
    the bucket and the key only. *)
Theorem empty_disposition_is_not_passed
    (event : json) (d : dict) (w : world) :
  parse_body E event = Returned (JObj d) ->
  missing_or_empty d "object_key" = false ->
  head_object E (Download.BUCKET_NAME dcfg) (field d "object_key" JNull) =
    Returned tt ->
  missing_or_empty d "response_content_disposition" = true ->
  s3_calls (snd (Download.lambda_handler E dcfg event w)) =
    (s3_calls w ++
     [Head_object (Download.BUCKET_NAME dcfg) (field d "object_key" JNull);
      Generate_presigned_url "get_object"
        [("Bucket", JStr (Download.BUCKET_NAME dcfg));
         ("Key", field d "object_key" JNull)]
        (Download.EXPIRATION_TIME dcfg)])%list.
Proof.
  intros Hbody Hkey Hhead Hempty.
  apply missing_or_empty_falsy in Hempty.
  destruct (download_existing_object E dcfg event d w Hbody Hkey Hhead)
    as [Hworld _].
  rewrite Hempty in Hworld. rewrite Hworld.
  unfold log_call. cbn [s3_calls]. now rewrite <- app_assoc.
Qed.

End Calls.

Lemma default_content_type_condition_is_kept :
  Py.contains Upload.sse_field
    (Py.str (JObj [(Upload.content_type_field,
                    JStr "application/octet-stream")])) = false.
Proof. reflexivity. Qed.

Lemma null_content_type_condition_is_kept :
  Py.contains Upload.sse_field
    (Py.str (JObj [(Upload.content_type_field, JNull)])) = false.
Proof. reflexivity. Qed.

Section Defaults.
Variable E : env.
Variable cfg : Upload.config.

(** What is presigned for a content type whose condition the encryption
    set-up keeps. *)
Lemma kept_content_type
    (event : json) (d md : dict) (content_type : json) (w : world) :
  parse_body E event = Returned (JObj d) ->
  missing_or_empty d "filename" = false ->
  field d "metadata" (JObj []) = JObj md ->
  field d "content_type" (JStr "application/octet-stream") = content_type ->
  allowed cfg content_type = true ->
  Py.contains Upload.sse_field
    (Py.str (JObj [(Upload.content_type_field, content_type)])) = false ->
  exists (key : string) (fields : dict) (conditions : list json),
    s3_calls (snd (Upload.lambda_handler E cfg event w)) =
      (s3_calls w ++
       [Generate_presigned_post (Upload.BUCKET_NAME cfg) key fields
          conditions (Upload.EXPIRATION_TIME cfg)])%list /\
    Py.dict_get fields Upload.content_type_field = Some content_type /\
    In (JObj [(Upload.content_type_field, content_type)]) conditions /\
    count (binds_field Upload.content_type_field) conditions = 1%nat.
Proof.
  intros Hbody Hname Hmd Hct Hallowed Hkept.
  rewrite <- Hct in Hallowed.
  destruct (upload_valid_request E cfg event d md w Hbody Hname Hallowed Hmd)
    as (u & Hu & Hworld & _).
  rewrite Hct in Hworld.
  do 3 eexists. split; [rewrite Hworld; apply log_call_calls|].
  destruct (negb (String.eqb (Upload.KMS_KEY_ID cfg) EmptyString)).
  - split.
    { rewrite encryption_setup_keeps_field by reflexivity.
      now rewrite add_metadata_content_type. }
    unfold Upload.encryption_setup. cbn [fst snd filter].
    rewrite Hkept, size_condition_is_kept. cbn [negb].
    destruct (negb (Py.contains Upload.sse_field
                      (Py.str (JObj [(Upload.uploaded_at_field, u)]))));
      (split; [now left | reflexivity]).
  - cbn [fst snd]. split; [now rewrite add_metadata_content_type|].
    split; [now left | reflexivity].
Qed.

(** X16. A request that gives no content type is presigned for
    [application/octet-stream]: that value is the required [Content-Type]
    field and is bound by the one content-type condition. A content type
    given as null is not replaced by the default: with no allow-list
    configured, the required field and its condition hold Python's
    [None]. *)
Theorem content_type_defaults_when_absent
    (event : json) (d md : dict) (w : world) :
  parse_body E event = Returned (JObj d) ->
  missing_or_empty d "filename" = false ->
  field d "metadata" (JObj []) = JObj md ->
  let presigned_for (content_type : json) : Prop :=
    exists (key : string) (fields : dict) (conditions : list json),
      s3_calls (snd (Upload.lambda_handler E cfg event w)) =
        (s3_calls w ++
         [Generate_presigned_post (Upload.BUCKET_NAME cfg) key fields
            conditions (Upload.EXPIRATION_TIME cfg)])%list /\
      Py.dict_get fields Upload.content_type_field = Some content_type /\
      In (JObj [(Upload.content_type_field, content_type)]) conditions /\
      count (binds_field Upload.content_type_field) conditions = 1%nat in
  (Py.dict_get d "content_type" = None ->
   allowed cfg (JStr "application/octet-stream") = true ->
   presigned_for (JStr "application/octet-stream")) /\
  (Py.dict_get d "content_type" = Some JNull ->
   Upload.ALLOWED_CONTENT_TYPES cfg = [] ->
   presigned_for JNull).
Proof.
  intros Hbody Hname Hmd presigned_for. split.
  - intros Habsent Hallowed.
    apply (kept_content_type event d md _ w Hbody Hname Hmd).
    + now apply absent_field.
    + exact Hallowed.
    + apply default_content_type_condition_is_kept.
  - intros Hnull Hopen.
    apply (kept_content_type event d md _ w Hbody Hname Hmd).
    + now apply present_field.
    + unfold allowed. now rewrite Hopen.
    + apply null_content_type_condition_is_kept.
Qed.

End Defaults.

(** ** The further properties on concrete requests *)

(** X1 on scenario A, with an S3 that refuses to sign. *)
Lemma upload_signing_failure_on_scenario_a :
  fst (Upload.lambda_handler Demo.E_denied (Demo.upload_cfg [] EmptyString)
         Demo.scenario_a initial_world) =
    Upload.error_response Demo.E_denied 500
      (failure_message Demo.access_denied).
Proof.
  apply (upload_signing_failure_is_500 Demo.E_denied
           (Demo.upload_cfg [] EmptyString) Demo.scenario_a
           [("filename", JStr "doc.pdf");
            ("content_type", JStr "application/pdf")]
           [] initial_world Demo.access_denied);
    reflexivity.
Defined.

(** X2 on scenario D, with an S3 that denies the existence check. *)
Lemma download_check_failure_on_scenario_d :
  Download.lambda_handler Demo.E_denied Demo.download_cfg Demo.scenario_d
    initial_world =
    (Download.error_response Demo.E_denied 500
       (failure_message Demo.access_denied),
     {| clock_reads := 0;
        s3_calls := [Head_object "fortress" (JStr "k")] |}).
Proof.
  apply (download_check_failure_is_500 Demo.E_denied Demo.download_cfg
           Demo.scenario_d
           [("object_key", JStr "k");
            ("response_content_disposition",
             JStr "attachment; filename=out.pdf")]
           initial_world Demo.access_denied).
  - reflexivity.
  - reflexivity.
  - reflexivity.
  - intros text H. discriminate H.
Defined.

(** X3 on scenario D, with an S3 that cannot sign. *)
Lemma download_signing_failure_on_scenario_d :
  fst (Download.lambda_handler Demo.E_unsigned Demo.download_cfg
         Demo.scenario_d initial_world) =
    Download.error_response Demo.E_unsigned 500
      "Unexpected error: Unable to locate credentials".
Proof.
  apply (download_signing_failure_is_500 Demo.E_unsigned Demo.download_cfg
           Demo.scenario_d
           [("object_key", JStr "k");
            ("response_content_disposition",
             JStr "attachment; filename=out.pdf")]
           initial_world Demo.no_credentials);
    reflexivity.
Defined.

(** X4 on the empty request, sent as the text of a body. *)
Lemma event_shapes_agree_on_empty_request :
  Upload.lambda_handler Demo.E (Demo.upload_cfg [] EmptyString)
    (JObj [("body", JStr "{}")]) initial_world =
    Upload.lambda_handler Demo.E (Demo.upload_cfg [] EmptyString)
      (JObj []) initial_world /\
  Download.lambda_handler Demo.E Demo.download_cfg
    (JObj [("body", JStr "{}")]) initial_world =
    Download.lambda_handler Demo.E Demo.download_cfg (JObj []) initial_world.
Proof.
  apply (event_shapes_agree Demo.E (Demo.upload_cfg [] EmptyString)
           Demo.download_cfg [("body", JStr "{}")] [] initial_world).
  - reflexivity.
  - right. exists "{}". split; reflexivity.
Defined.

(** X5 on an event that is an empty array. *)
Lemma non_object_request_on_an_array :
  statusCode
    (fst (Upload.lambda_handler Demo.E (Demo.upload_cfg [] EmptyString)
            (JArr []) initial_world)) = 500 /\
  statusCode
    (fst (Download.lambda_handler Demo.E Demo.download_cfg
            (JArr []) initial_world)) = 500.
Proof.
  destruct (non_object_request_is_unexpected_error Demo.E
              (Demo.upload_cfg [] EmptyString) Demo.download_cfg
              (JArr []) (JArr []) initial_world eq_refl) as [Hup Hdown].
  - intros d H. discriminate H.
  - rewrite Hup, Hdown. split; reflexivity.
Defined.

(** X6 on metadata given as text. *)
Lemma upload_metadata_given_as_text :
  fst (Upload.lambda_handler Demo.E (Demo.upload_cfg [] EmptyString)
         Demo.untyped_metadata_upload initial_world) =
    Upload.error_response Demo.E 500
      "Unexpected error: 'str' object has no attribute 'items'".
Proof.
  apply (upload_metadata_must_be_an_object Demo.E
           (Demo.upload_cfg [] EmptyString) Demo.untyped_metadata_upload
           [("filename", JStr "doc.pdf"); ("metadata", JStr "user_id=123")]
           (JStr "user_id=123") initial_world).
  - reflexivity.
  - reflexivity.
  - reflexivity.
  - reflexivity.
  - intros md H. discriminate H.
Defined.

(** X7 on scenario A with a KMS key. *)
Lemma encryption_pair_on_scenario_a :
  exists (key : string) (fields : dict) (conditions : list json),
    s3_calls
      (snd (Upload.lambda_handler Demo.E (Demo.upload_cfg [] Demo.kms_key)
              Demo.scenario_a initial_world)) =
      [Generate_presigned_post "fortress" key fields conditions 300] /\
    count (binds_field Upload.sse_field) conditions = 1%nat /\
    count (binds_field Upload.sse_key_id_field) conditions = 1%nat.
Proof.
  destruct (encryption_pair_is_sent_exactly_once Demo.E
              (Demo.upload_cfg [] Demo.kms_key) Demo.scenario_a
              [("filename", JStr "doc.pdf");
               ("content_type", JStr "application/pdf")]
              [] initial_world eq_refl eq_refl eq_refl eq_refl)
    as (key & fields & conditions & earlier & Hcalls & _ & Halg & Hkey & _).
  - intros H. discriminate H.
  - exists key, fields, conditions. repeat split; assumption.
Defined.

(** X8 on scenario A without a KMS key. *)
Lemma no_encryption_on_scenario_a :
  exists (key : string) (fields : dict) (conditions : list json),
    s3_calls
      (snd (Upload.lambda_handler Demo.E (Demo.upload_cfg [] EmptyString)
              Demo.scenario_a initial_world)) =
      [Generate_presigned_post "fortress" key fields conditions 300] /\
    List.length conditions = 3%nat /\
    Py.dict_get fields Upload.sse_field = None.
Proof.
  destruct (no_encryption_without_a_key Demo.E
              (Demo.upload_cfg [] EmptyString) Demo.scenario_a
              [("filename", JStr "doc.pdf");
               ("content_type", JStr "application/pdf")]
              [] initial_world eq_refl eq_refl eq_refl eq_refl eq_refl)
    as (key & fields & ct & ts & Hcalls & _ & _ & Hnone & _).
  do 3 eexists. split; [exact Hcalls|]. split; [reflexivity | exact Hnone].
Defined.

(** X9 on a request with a numeric metadata value. *)
Lemma metadata_number_is_sent_as_text :
  exists (key : string) (fields : dict) (conditions : list json),
    s3_calls
      (snd (Upload.lambda_handler Demo.E (Demo.upload_cfg [] EmptyString)
              Demo.tagged_upload initial_world)) =
      [Generate_presigned_post "fortress" key fields conditions 300] /\
    Py.dict_get fields "x-amz-meta-user_id" = Some (JStr "123").
Proof.
  apply (metadata_values_are_sent_as_text Demo.E
           (Demo.upload_cfg [] EmptyString) Demo.tagged_upload
           [("filename", JStr "doc.pdf");
            ("metadata", JObj [("user_id", JInt 123); ("team", JStr "ops")])]
           [("user_id", JInt 123); ("team", JStr "ops")]
           "user_id" (JInt 123) initial_world).
  - reflexivity.
  - reflexivity.
  - reflexivity.
  - reflexivity.
  - simpl. repeat constructor; simpl; intuition discriminate.
  - simpl. now left.
Defined.

(** X10 on a request that backdates its upload. *)
Lemma backdated_upload_keeps_its_date :
  exists (key : string) (fields : dict) (conditions : list json),
    s3_calls
      (snd (Upload.lambda_handler Demo.E (Demo.upload_cfg [] EmptyString)
              Demo.backdated_upload initial_world)) =
      [Generate_presigned_post "fortress" key fields conditions 300] /\
    Py.dict_get fields Upload.uploaded_at_field =
      Some (JStr "1999-12-31T23:59:59").
Proof.
  destruct (metadata_can_replace_the_upload_timestamp Demo.E
              (Demo.upload_cfg [] EmptyString) Demo.backdated_upload
              [("filename", JStr "doc.pdf");
               ("metadata",
                JObj [("uploaded-at", JStr "1999-12-31T23:59:59")])]
              [("uploaded-at", JStr "1999-12-31T23:59:59")]
              (JStr "1999-12-31T23:59:59") initial_world
              eq_refl eq_refl eq_refl eq_refl)
    as (key & fields & conditions & Hcalls & Htag & _).
  - simpl. repeat constructor; simpl; intuition.
  - simpl. now left.
  - exists key, fields, conditions. split; [exact Hcalls | exact Htag].
Defined.

(** X13 on the empty request. *)
Lemma rejection_of_the_empty_request_touches_nothing :
  snd (Upload.lambda_handler Demo.E (Demo.upload_cfg [] EmptyString)
         (JObj []) initial_world) = initial_world /\
  snd (Download.lambda_handler Demo.E Demo.download_cfg
         (JObj []) initial_world) = initial_world.
Proof.
  destruct (rejections_touch_nothing Demo.E (Demo.upload_cfg [] EmptyString)
              Demo.download_cfg (JObj []) initial_world) as [Hup Hdown].
  split; [apply Hup | apply Hdown]; reflexivity.
Defined.

(** X14 on scenario D. *)
Lemma success_on_scenario_d_carries_the_signed_url :
  exists (key : json) (params : dict) (url : string),
    generate_presigned_url Demo.E "get_object" params 300 = Returned url /\
    fst (Download.lambda_handler Demo.E Demo.download_cfg Demo.scenario_d
           initial_world) =
      Download.success_response Demo.E
        (JObj [("download_url", JStr url); ("object_key", key);
               ("expires_in", JInt 300)]).
Proof.
  destruct (successes_carry_the_signed_url Demo.E
              (Demo.upload_cfg [] EmptyString) Demo.download_cfg
              Demo.scenario_d initial_world) as [_ Hdown].
  destruct (Hdown eq_refl) as (key & params & url & _ & Hurl & Hresp).
  exists key, params, url. split; [exact Hurl | exact Hresp].
Defined.

(** X15 on a request with an empty override. *)
Lemma empty_disposition_on_a_request :
  s3_calls
    (snd (Download.lambda_handler Demo.E Demo.download_cfg
            (JObj [("object_key", JStr "k");
                   ("response_content_disposition", JStr EmptyString)])
            initial_world)) =
    [Head_object "fortress" (JStr "k");
     Generate_presigned_url "get_object"
       [("Bucket", JStr "fortress"); ("Key", JStr "k")] 300].
Proof.
  apply (empty_disposition_is_not_passed Demo.E Demo.download_cfg
           (JObj [("object_key", JStr "k");
                  ("response_content_disposition", JStr EmptyString)])
           [("object_key", JStr "k");
            ("response_content_disposition", JStr EmptyString)]
           initial_world); reflexivity.
Defined.

(** X16 on a request with a file name only. *)
Lemma content_type_defaults_on_a_bare_request :
  exists (key : string) (fields : dict) (conditions : list json),
    s3_calls
      (snd (Upload.lambda_handler Demo.E (Demo.upload_cfg [] EmptyString)
              (JObj [("filename", JStr "doc.pdf")]) initial_world)) =
      [Generate_presigned_post "fortress" key fields conditions 300] /\
    Py.dict_get fields Upload.content_type_field =
      Some (JStr "application/octet-stream").
Proof.
  destruct (content_type_defaults_when_absent Demo.E
              (Demo.upload_cfg [] EmptyString)
              (JObj [("filename", JStr "doc.pdf")])
              [("filename", JStr "doc.pdf")] [] initial_world
              eq_refl eq_refl eq_refl) as [Habsent _].
  destruct (Habsent eq_refl eq_refl)
    as (key & fields & conditions & Hcalls & Hfield & _).
  exists key, fields, conditions. split; [exact Hcalls | exact Hfield].
Defined.

(** The conditions of scenario A with a KMS key: one of each kind. *)
Lemma conditions_once_on_scenario_a :
  exists (key : string) (fields : dict) (conditions : list json),
    s3_calls
      (snd (Upload.lambda_handler Demo.E (Demo.upload_cfg [] Demo.kms_key)
              Demo.scenario_a initial_world)) =
      [Generate_presigned_post "fortress" key fields conditions 300] /\
    List.length conditions = 5%nat.
Proof.
  destruct (conditions_once_without_name_clash Demo.E
              (Demo.upload_cfg [] Demo.kms_key) Demo.scenario_a
              [("filename", JStr "doc.pdf");
               ("content_type", JStr "application/pdf")]
              [] initial_world eq_refl eq_refl eq_refl eq_refl)
    as (key & fields & conditions & Hcalls & Hlen & _).
  - intros H. discriminate H.
  - reflexivity.
  - reflexivity.
  - exists key, fields, conditions. split; [exact Hcalls | exact Hlen].
Defined.

(** The conditions of the documented upload are backed by its fields. *)
Lemma conditions_are_backed_on_the_documented_upload :
  exists (key : string) (fields : dict) (conditions : list json),
    s3_calls
      (snd (Upload.lambda_handler Demo.E (Demo.upload_cfg [] Demo.kms_key)
              Demo.documented_upload initial_world)) =
      [Generate_presigned_post "fortress" key fields conditions 300] /\
    forall (k : string) (v : json),
      In (JObj [(k, v)]) conditions -> Py.dict_get fields k = Some v.
Proof.
  apply (conditions_are_backed_by_fields Demo.E
           (Demo.upload_cfg [] Demo.kms_key) Demo.documented_upload
           [("filename", JStr "document.pdf");
            ("content_type", JStr "application/pdf");
            ("metadata", JObj [("user_id", JStr "123")])]
           [("user_id", JStr "123")] initial_world); reflexivity.
Defined.
